(** * Photo-Editor: the canvas component (src/components/Canvas.tsx)

    A shallow embedding of the React component [Canvas] and of the part of
    the Fabric canvas it drives, followed by the properties of the editor
    (history, project files, grid, toolbar, image import, filters).

    The component imports [Canvas], [Rect], [FabricImage] ... by name from
    ['fabric'] (lines 4-14); these named exports exist from Fabric 6 on, and
    the Fabric operations below are those of that version.

    The component keeps its state in React hooks and in one mutable Fabric
    canvas.  Here both are fields of one record, [Editor], and every handler
    of the component is a function [Editor -> Editor].  Handlers run one at a
    time (the browser's event loop), so a handler together with the
    continuation of the promise it starts is one step. *)

From Stdlib Require Import ZArith QArith Qround Qabs List String Bool Lia Lqa.
Import ListNotations.
Open Scope string_scope.

(** ** Fabric objects *)

(** A JavaScript [number].  Positions and scale factors are fractional in
    general (pointer positions, [300 / width]), so numbers are rationals. *)
Definition number := Q.

(** The image filters the component names ([Grayscale], [Sepia]); an image
    read from a project file can carry them. *)
Inductive Filter := Grayscale | Sepia.

(** The attributes of an object that Fabric writes into its JSON form
    ([toObject]): the ones the component sets or reads.  [type] is the value
    of the getter [obj.type] (['rect'], ['i-text'], ['image'], ['line']); the
    JSON form writes the name of the class instead, one for one. *)
Record Attrs := mkAttrs {
  type : string;
  left : number;
  top : number;
  width : number;
  height : number;
  radius : number;
  x1 : number; y1 : number; x2 : number; y2 : number;
  fill : option string;
  stroke : option string;
  scaleX : number;
  scaleY : number;
  visible : bool;
  text : string;
  fontSize : number;
  fontFamily : string;
  textAlign : string;
  src : string;
  filters : list Filter
}.

(** A live Fabric object: its serialized attributes, the interaction flags
    Fabric keeps out of the JSON form, and [oid], which stands for the
    identity of the JavaScript object (handlers hold references to objects). *)
Record FabricObject := mkObject {
  oid : nat;
  attrs : Attrs;
  selectable : bool;
  evented : bool;
  excludeFromExport : bool;
  lockMovementX : bool;
  lockMovementY : bool;
  lockScalingX : bool;
  lockScalingY : bool;
  lockRotation : bool
}.

(** An object as a Fabric constructor or [fromObject] leaves it: selectable,
    evented, exported and unlocked. *)
Definition newObject (id : nat) (a : Attrs) : FabricObject :=
  {| oid := id; attrs := a;
     selectable := true; evented := true; excludeFromExport := false;
     lockMovementX := false; lockMovementY := false;
     lockScalingX := false; lockScalingY := false; lockRotation := false |}.

(** *** Field updates ([obj.set(...)] and plain assignments) *)

Definition set_position (l t : number) (a : Attrs) : Attrs :=
  {| type := type a; left := l; top := t; width := width a; height := height a;
     radius := radius a; x1 := x1 a; y1 := y1 a; x2 := x2 a; y2 := y2 a;
     fill := fill a; stroke := stroke a; scaleX := scaleX a; scaleY := scaleY a;
     visible := visible a; text := text a; fontSize := fontSize a;
     fontFamily := fontFamily a; textAlign := textAlign a; src := src a;
     filters := filters a |}.

Definition set_fill (v : option string) (a : Attrs) : Attrs :=
  {| type := type a; left := left a; top := top a; width := width a;
     height := height a; radius := radius a;
     x1 := x1 a; y1 := y1 a; x2 := x2 a; y2 := y2 a;
     fill := v; stroke := stroke a; scaleX := scaleX a; scaleY := scaleY a;
     visible := visible a; text := text a; fontSize := fontSize a;
     fontFamily := fontFamily a; textAlign := textAlign a; src := src a;
     filters := filters a |}.

Definition set_stroke (v : option string) (a : Attrs) : Attrs :=
  {| type := type a; left := left a; top := top a; width := width a;
     height := height a; radius := radius a;
     x1 := x1 a; y1 := y1 a; x2 := x2 a; y2 := y2 a;
     fill := fill a; stroke := v; scaleX := scaleX a; scaleY := scaleY a;
     visible := visible a; text := text a; fontSize := fontSize a;
     fontFamily := fontFamily a; textAlign := textAlign a; src := src a;
     filters := filters a |}.

Definition set_scale (sx sy : number) (a : Attrs) : Attrs :=
  {| type := type a; left := left a; top := top a; width := width a;
     height := height a; radius := radius a;
     x1 := x1 a; y1 := y1 a; x2 := x2 a; y2 := y2 a;
     fill := fill a; stroke := stroke a; scaleX := sx; scaleY := sy;
     visible := visible a; text := text a; fontSize := fontSize a;
     fontFamily := fontFamily a; textAlign := textAlign a; src := src a;
     filters := filters a |}.

Definition set_visible (v : bool) (a : Attrs) : Attrs :=
  {| type := type a; left := left a; top := top a; width := width a;
     height := height a; radius := radius a;
     x1 := x1 a; y1 := y1 a; x2 := x2 a; y2 := y2 a;
     fill := fill a; stroke := stroke a; scaleX := scaleX a; scaleY := scaleY a;
     visible := v; text := text a; fontSize := fontSize a;
     fontFamily := fontFamily a; textAlign := textAlign a; src := src a;
     filters := filters a |}.

Definition set_fontSize (v : number) (a : Attrs) : Attrs :=
  {| type := type a; left := left a; top := top a; width := width a;
     height := height a; radius := radius a;
     x1 := x1 a; y1 := y1 a; x2 := x2 a; y2 := y2 a;
     fill := fill a; stroke := stroke a; scaleX := scaleX a; scaleY := scaleY a;
     visible := visible a; text := text a; fontSize := v;
     fontFamily := fontFamily a; textAlign := textAlign a; src := src a;
     filters := filters a |}.

Definition set_fontFamily (v : string) (a : Attrs) : Attrs :=
  {| type := type a; left := left a; top := top a; width := width a;
     height := height a; radius := radius a;
     x1 := x1 a; y1 := y1 a; x2 := x2 a; y2 := y2 a;
     fill := fill a; stroke := stroke a; scaleX := scaleX a; scaleY := scaleY a;
     visible := visible a; text := text a; fontSize := fontSize a;
     fontFamily := v; textAlign := textAlign a; src := src a;
     filters := filters a |}.

Definition set_textAlign (v : string) (a : Attrs) : Attrs :=
  {| type := type a; left := left a; top := top a; width := width a;
     height := height a; radius := radius a;
     x1 := x1 a; y1 := y1 a; x2 := x2 a; y2 := y2 a;
     fill := fill a; stroke := stroke a; scaleX := scaleX a; scaleY := scaleY a;
     visible := visible a; text := text a; fontSize := fontSize a;
     fontFamily := fontFamily a; textAlign := v; src := src a;
     filters := filters a |}.

(** Apply [f] to the serialized attributes of an object, flags untouched. *)
Definition with_attrs (f : Attrs -> Attrs) (o : FabricObject) : FabricObject :=
  {| oid := oid o; attrs := f (attrs o);
     selectable := selectable o; evented := evented o;
     excludeFromExport := excludeFromExport o;
     lockMovementX := lockMovementX o; lockMovementY := lockMovementY o;
     lockScalingX := lockScalingX o; lockScalingY := lockScalingY o;
     lockRotation := lockRotation o |}.

(** ** The Fabric canvas *)

(** [objects] is [canvas.getObjects()], lowest layer first; [activeObject]
    is the identity of [canvas.getActiveObject()], when there is one. *)
Record FabricCanvas := mkCanvas {
  objects : list FabricObject;
  activeObject : option nat
}.

Definition find_object (id : nat) (os : list FabricObject) : option FabricObject :=
  find (fun o => Nat.eqb (oid o) id) os.

(** A mutation through a reference to the object [id]. *)
Definition update_object (id : nat) (f : FabricObject -> FabricObject)
    (os : list FabricObject) : list FabricObject :=
  map (fun o => if Nat.eqb (oid o) id then f o else o) os.

Definition getActiveObject (c : FabricCanvas) : option FabricObject :=
  match activeObject c with
  | Some id => find_object id (objects c)
  | None => None
  end.

(** ** Serialization *)

(** The JSON document Fabric produces for a canvas, kept as the value it
    encodes: the array of the objects' JSON forms, in z-order.  (The
    document's version and background members are the same in every document
    the component writes.)  [JSON.stringify] is a function of this value, so
    equal snapshots are equal byte strings. *)
Definition Snapshot := list Attrs.

(** [obj.toObject()]: the serialized attributes; identity and interaction
    flags are not written.  (Fabric writes numbers with a fixed number of
    decimals; values are taken here at that precision.) *)
Definition toObject (o : FabricObject) : Attrs := attrs o.

(** [canvas.toJSON()], and [JSON.stringify(canvas)] which calls it: the
    objects not flagged [excludeFromExport], in z-order. *)
Definition toJSON (c : FabricCanvas) : Snapshot :=
  map toObject (filter (fun o => negb (excludeFromExport o)) (objects c)).

(** The text handed to [loadFromJSON], as [JSON.parse] sees it: text that
    does not parse, or a document with or without an [objects] array.  The
    entries of the array are JSON forms of objects as Fabric writes them;
    arrays holding anything else are not modelled. *)
Inductive Payload :=
| NotJSON (text : string)
| Document (objs : option (list Attrs)).

Definition stringify (s : Snapshot) : Payload := Document (Some s).

(** ** The component's state *)

(** The component once mounted: the mount effect (lines 49-66) has created
    the Fabric canvas, so [canvas] is never null and the [if (canvas)] and
    [canvas?.] guards of the handlers are taken.  A hook that holds [null]
    or [undefined] is [None].  [nextId] is the identity the next allocated
    Fabric object receives. *)
Record Editor := mkEditor {
  canvas : FabricCanvas;
  history : list Snapshot;
  redoStack : list Snapshot;
  selectedObject : option nat;
  selectedText : option nat;
  isLayerModalOpen : bool;
  nextId : nat
}.

Definition set_canvas (c : FabricCanvas) (st : Editor) : Editor :=
  {| canvas := c; history := history st; redoStack := redoStack st;
     selectedObject := selectedObject st; selectedText := selectedText st;
     isLayerModalOpen := isLayerModalOpen st; nextId := nextId st |}.

Definition set_objects (os : list FabricObject) (st : Editor) : Editor :=
  set_canvas {| objects := os; activeObject := activeObject (canvas st) |} st.

Definition setHistory (h : list Snapshot) (st : Editor) : Editor :=
  {| canvas := canvas st; history := h; redoStack := redoStack st;
     selectedObject := selectedObject st; selectedText := selectedText st;
     isLayerModalOpen := isLayerModalOpen st; nextId := nextId st |}.

Definition setRedoStack (r : list Snapshot) (st : Editor) : Editor :=
  {| canvas := canvas st; history := history st; redoStack := r;
     selectedObject := selectedObject st; selectedText := selectedText st;
     isLayerModalOpen := isLayerModalOpen st; nextId := nextId st |}.

Definition setSelected (o t : option nat) (st : Editor) : Editor :=
  {| canvas := canvas st; history := history st; redoStack := redoStack st;
     selectedObject := o; selectedText := t;
     isLayerModalOpen := isLayerModalOpen st; nextId := nextId st |}.

Definition setIsLayerModalOpen (b : bool) (st : Editor) : Editor :=
  {| canvas := canvas st; history := history st; redoStack := redoStack st;
     selectedObject := selectedObject st; selectedText := selectedText st;
     isLayerModalOpen := b; nextId := nextId st |}.

Definition set_nextId (n : nat) (st : Editor) : Editor :=
  {| canvas := canvas st; history := history st; redoStack := redoStack st;
     selectedObject := selectedObject st; selectedText := selectedText st;
     isLayerModalOpen := isLayerModalOpen st; nextId := n |}.

(** ** History (lines 73-99) *)

(** [saveState(currentCanvas)]: every call passes the one canvas of the
    component.  Appends its JSON to [history] and empties [redoStack]. *)
Definition saveState (st : Editor) : Editor :=
  setRedoStack [] (setHistory (history st ++ [toJSON (canvas st)]) st).

(** ** Events

    After mount three groups of listeners are registered on the canvas:
    - lines 428-435: [object:added], [object:removed] and [object:modified]
      each call [saveState(canvas)];
    - lines 296-301: [object:moving] snaps the moved object to the grid;
    - lines 238-243: the selection events write the hooks [selectedObject]
      and [selectedText].
    Fabric calls listeners synchronously from the operation that fires the
    event, so an operation and its listeners are composed here. *)

(** The listener of lines 428-435. *)
Definition on_object_event (st : Editor) : Editor := saveState st.

(** [updateSelection] (lines 229-237) on [e.target], which is [undefined]
    ([None]) when the event carries no target. *)
Definition updateSelection (target : option FabricObject) (st : Editor) : Editor :=
  match target with
  | Some t =>
      if String.eqb (type (attrs t)) "i-text"
      then setSelected (Some (oid t)) (Some (oid t)) st
      else setSelected (Some (oid t)) None st
  | None => setSelected None None st
  end.

(** The [selection:cleared] listener (lines 240-243). *)
Definition on_selection_cleared (st : Editor) : Editor :=
  setSelected None None st.

(** ** Fabric operations, with the listeners they trigger *)

(** [canvas.add(obj)]: the object goes on top and [object:added] fires. *)
Definition canvas_add (o : FabricObject) (st : Editor) : Editor :=
  on_object_event (set_objects (objects (canvas st) ++ [o]) st).

(** A constructor call followed by [canvas.add]: the new object takes the
    next identity. *)
Definition create (a : Attrs) (st : Editor) : Editor :=
  canvas_add (newObject (nextId st) a) (set_nextId (S (nextId st)) st).

(** [canvas.setActiveObject(obj)] as the pointer does it; fires
    [selection:created] or [selection:updated].  These events carry the
    lists [selected] and [deselected] and no [target]. *)
Definition setActiveObject (o : FabricObject) (st : Editor) : Editor :=
  updateSelection None
    (set_canvas {| objects := objects (canvas st);
                   activeObject := Some (oid o) |} st).

(** [canvas.discardActiveObject()]; fires [selection:cleared] when an object
    was active. *)
Definition discardActiveObject (st : Editor) : Editor :=
  match activeObject (canvas st) with
  | Some _ =>
      on_selection_cleared
        (set_canvas {| objects := objects (canvas st);
                       activeObject := None |} st)
  | None => st
  end.

(** [canvas.remove(...)] over the first [n] objects: each is taken out and
    [object:removed] fires for it. *)
Fixpoint remove_first (n : nat) (st : Editor) : Editor :=
  match n with
  | O => st
  | S n' =>
      remove_first n'
        (on_object_event (set_objects (tl (objects (canvas st))) st))
  end.

(** [canvas.clear()]: removes every object; the active object, removed with
    the others, is deselected and [selection:cleared] fires.  The listener of
    that event and the one of [object:removed] write different hooks, so the
    deselection is placed first. *)
Definition clear (st : Editor) : Editor :=
  let st1 := discardActiveObject st in
  remove_first (List.length (objects (canvas st1))) st1.

(** The objects [loadFromJSON] builds from the array [l] of a document, the
    first one receiving the identity [first]. *)
Fixpoint revive (first : nat) (l : list Attrs) : list FabricObject :=
  match l with
  | [] => []
  | a :: rest => newObject first a :: revive (S first) rest
  end.

(** [n] calls of a listener or callback, one after the other. *)
Fixpoint calls (n : nat) (f : Editor -> Editor) (st : Editor) : Editor :=
  match n with
  | O => st
  | S n' => calls n' f (f st)
  end.

(** [canvas.add(...objects)] on the revived objects of a document: all of
    them are pushed on the stack first, then [object:added] fires once for
    each. *)
Definition add_all (l : list Attrs) (st : Editor) : Editor :=
  calls (List.length l) on_object_event
    (set_nextId (nextId st + List.length l)
       (set_objects (objects (canvas st) ++ revive (nextId st) l) st)).

(** [canvas.loadFromJSON(json, reviver)].  [JSON.parse] runs first and
    throws on text that is not JSON ([None]: nothing has been touched).
    Otherwise the objects of the document, none when it has no [objects]
    member, are revived, and the function passed as second argument is called
    once for each of them, before the canvas is touched; then the canvas is
    cleared and the revived objects are added.  (The method returns a
    promise; its continuation runs as one step with the handler.) *)
Definition loadFromJSON (json : Payload) (reviver : Editor -> Editor)
    (st : Editor) : option Editor :=
  match json with
  | NotJSON _ => None
  | Document objs =>
      let l := match objs with Some l => l | None => [] end in
      Some (add_all l (clear (calls (List.length l) reviver st)))
  end.

(** [undo] (lines 81-90).  [history.pop()], run by the updater passed to
    [setRedoStack], shortens the array held in state in place.  The function
    passed to [loadFromJSON], which sets [history] to a copy of that
    shortened array, runs as reviver before the canvas changes; the entries
    that the listeners record during the replay come after it and stay. *)
Definition undo (st : Editor) : Editor :=
  if Nat.ltb 1 (List.length (history st)) then
    let prevState := nth (List.length (history st) - 2) (history st) [] in
    let popped := last (history st) [] in
    let history' := removelast (history st) in
    let st1 := setHistory history' (setRedoStack (redoStack st ++ [popped]) st) in
    match loadFromJSON (stringify prevState) (setHistory history') st1 with
    | Some st2 => st2
    | None => st1
    end
  else st.

(** [redo] (lines 93-99).  [redoStack.pop()] shortens the array in place;
    the function passed to [loadFromJSON] only renders. *)
Definition redo (st : Editor) : Editor :=
  if Nat.ltb 0 (List.length (redoStack st)) then
    let nextState := last (redoStack st) [] in
    let st1 := setHistory (history st ++ [nextState])
                 (setRedoStack (removelast (redoStack st)) st) in
    match loadFromJSON (stringify nextState) (fun s => s) st1 with
    | Some st2 => st2
    | None => st1
    end
  else st.

(** The result of a handler: it returns, or it throws and leaves the state
    as it was at the throw. *)
Inductive Outcome :=
| Returned (st : Editor)
| Thrown (error : string) (st : Editor).

Definition after (o : Outcome) : Editor :=
  match o with
  | Returned st => st
  | Thrown _ st => st
  end.

(** ** Inserting objects (lines 101-142) *)

(** [new Rect({ width: 100, height: 100, fill: '#0000ff', left: 50,
    top: 50 })]; the attributes not given take Fabric's defaults. *)
Definition rectAttrs : Attrs :=
  {| type := "rect"; left := 50; top := 50; width := 100; height := 100;
     radius := 0; x1 := 0; y1 := 0; x2 := 0; y2 := 0;
     fill := Some "#0000ff"; stroke := None; scaleX := 1; scaleY := 1;
     visible := true; text := ""; fontSize := 40;
     fontFamily := "Times New Roman"; textAlign := "left"; src := "";
     filters := [] |}.

(** [new Circle({ radius: 50, fill: '#00ff00', left: 200, top: 200 })]; a
    circle is as wide and as high as its diameter. *)
Definition circleAttrs : Attrs :=
  {| type := "circle"; left := 200; top := 200; width := 100; height := 100;
     radius := 50; x1 := 0; y1 := 0; x2 := 0; y2 := 0;
     fill := Some "#00ff00"; stroke := None; scaleX := 1; scaleY := 1;
     visible := true; text := ""; fontSize := 40;
     fontFamily := "Times New Roman"; textAlign := "left"; src := "";
     filters := [] |}.

(** [new IText('Edit me!', { left: 300, top: 300, fontSize: 20,
    fill: '#000000' })].  The size of a text comes from font metrics, which
    are not modelled. *)
Definition textAttrs : Attrs :=
  {| type := "i-text"; left := 300; top := 300; width := 0; height := 0;
     radius := 0; x1 := 0; y1 := 0; x2 := 0; y2 := 0;
     fill := Some "#000000"; stroke := None; scaleX := 1; scaleY := 1;
     visible := true; text := "Edit me!"; fontSize := 20;
     fontFamily := "Times New Roman"; textAlign := "left"; src := "";
     filters := [] |}.

Definition addRectangle (st : Editor) : Editor := saveState (create rectAttrs st).

Definition addCircle (st : Editor) : Editor := saveState (create circleAttrs st).

Definition addText (st : Editor) : Editor := saveState (create textAttrs st).

(** ** Image import and filters (lines 191-224) *)

(** The image Fabric builds from the chosen file: [src] is the data URL and
    [w], [h] the natural size in pixels. *)
Definition imageAttrs (url : string) (w h : positive) : Attrs :=
  {| type := "image"; left := 0; top := 0;
     width := inject_Z (Zpos w); height := inject_Z (Zpos h);
     radius := 0; x1 := 0; y1 := 0; x2 := 0; y2 := 0;
     fill := Some "rgb(0,0,0)"; stroke := None; scaleX := 1; scaleY := 1;
     visible := true; text := ""; fontSize := 40;
     fontFamily := "Times New Roman"; textAlign := "left"; src := url;
     filters := [] |}.

(** [img.scaleToWidth(value)]: both scale factors become [value / width]. *)
Definition scaleToWidth (value : number) (a : Attrs) : Attrs :=
  set_scale (value / width a) (value / width a) a.

(** The function that [handleImageUpload] writes for the loaded image
    (lines 197-201): scale, add, record. *)
Definition onImageLoaded (url : string) (w h : positive) (st : Editor) : Editor :=
  saveState (create (scaleToWidth 300 (imageAttrs url w h)) st).

(** [FabricImage.fromURL(url, options)]: the second argument is a record of
    options; a function handed there is never called.  The method returns a
    promise of the image and touches no canvas. *)
Definition fromURL (url : string) (options : Editor -> Editor) (st : Editor) : Editor :=
  st.

(** [handleImageUpload] (lines 192-205) on a chosen picture.  The promise
    that [fromURL] returns is dropped. *)
Definition handleImageUpload (url : string) (w h : positive) (st : Editor) : Editor :=
  fromURL url (onImageLoaded url w h) st.

(** [applyFilter] (lines 208-224).  [ImageFilters] is not among the exports
    of ['fabric'] (the filters are exported as [filters]), so the name is
    [undefined] and [new ImageFilters.Grayscale()], like
    [new ImageFilters.Sepia()], throws a [TypeError] before [filters] is
    assigned.  The [switch] has no default case: with any other name the
    handler goes on to [applyFilters], [renderAll] and [saveState]. *)
Definition applyFilter (filterType : string) (st : Editor) : Outcome :=
  match getActiveObject (canvas st) with
  | Some activeObject =>
      if String.eqb (type (attrs activeObject)) "image" then
        if String.eqb filterType "grayscale" then Thrown "TypeError" st
        else if String.eqb filterType "sepia" then Thrown "TypeError" st
        else Returned (saveState st)
      else Returned st
  | None => Returned st
  end.

(** ** Property edits (lines 247-263) *)

(** A value passed to [obj.set(property, value)]. *)
Inductive Value :=
| VString (s : string)
| VNumber (n : number).

(** [obj.set(property, value)] on the properties the controls of the
    component edit; any other key is outside the serialized attributes. *)
Definition set_property (property : string) (value : Value) (a : Attrs) : Attrs :=
  match value with
  | VString s =>
      if String.eqb property "fill" then set_fill (Some s) a
      else if String.eqb property "stroke" then set_stroke (Some s) a
      else if String.eqb property "fontFamily" then set_fontFamily s a
      else if String.eqb property "textAlign" then set_textAlign s a
      else a
  | VNumber n =>
      if String.eqb property "fontSize" then set_fontSize n a else a
  end.

Definition updateObjectColor (property value : string) (st : Editor) : Editor :=
  match selectedObject st with
  | Some id =>
      saveState
        (set_objects
           (update_object id (with_attrs (set_property property (VString value)))
              (objects (canvas st))) st)
  | None => st
  end.

Definition updateTextProperty (property : string) (value : Value) (st : Editor) : Editor :=
  match selectedText st with
  | Some id =>
      saveState
        (set_objects
           (update_object id (with_attrs (set_property property value))
              (objects (canvas st))) st)
  | None => st
  end.

(** ** Grid (lines 265-302) *)

Definition gridSize : number := 50.

(** [Math.round]: the nearest integer, halves going up. *)
Definition Math_round (x : number) : Z := Qfloor (x + (1 # 2)).

(** [Math.round(x / gridSize) * gridSize]. *)
Definition snap (x : number) : number :=
  inject_Z (Math_round (x / gridSize)) * gridSize.

(** The [object:moving] listener of lines 296-301, on the event's target. *)
Definition snapToGrid (o : FabricObject) : FabricObject :=
  with_attrs (fun a => set_position (snap (left a)) (snap (top a)) a) o.

(** A line from [(a, b)] to [(c, d)], for [a <= c] and [b <= d] as in
    [drawGrid].  Its stroke is one pixel wide and Fabric puts [left] and
    [top] half a stroke before the first end point. *)
Definition lineAttrs (a b c d : number) : Attrs :=
  {| type := "line"; left := a - (1 # 2); top := b - (1 # 2);
     width := c - a; height := d - b;
     radius := 0; x1 := a; y1 := b; x2 := c; y2 := d;
     fill := Some "rgb(0,0,0)"; stroke := Some "#e0e0e0";
     scaleX := 1; scaleY := 1; visible := true;
     text := ""; fontSize := 40; fontFamily := "Times New Roman";
     textAlign := "left"; src := ""; filters := [] |}.

(** [new Line([a, b, c, d], { stroke, selectable: false, evented: false,
    excludeFromExport: true })]. *)
Definition gridLine (id : nat) (a b c d : number) : FabricObject :=
  {| oid := id; attrs := lineAttrs a b c d;
     selectable := false; evented := false; excludeFromExport := true;
     lockMovementX := false; lockMovementY := false;
     lockScalingX := false; lockScalingY := false; lockRotation := false |}.

(** The number of turns of [for (let i = 0; i <= extent / gridSize; i++)]. *)
Definition lineCount (extent : number) : nat :=
  S (Z.to_nat (Qfloor (extent / gridSize))).

(** The lines [drawGrid] adds, vertical ones first; [first] is the identity
    of the first line.  At mount the listeners of lines 428-435 are not
    registered yet (their effect runs on the next render), so these adds
    record nothing. *)
Definition drawGrid (w h : number) (first : nat) : list FabricObject :=
  (map (fun i =>
          let distance := inject_Z (Z.of_nat i) * gridSize in
          gridLine (first + i) distance 0 distance h)
       (seq 0 (lineCount w))
   ++
   map (fun i =>
          let distance := inject_Z (Z.of_nat i) * gridSize in
          gridLine (first + lineCount w + i) 0 distance w distance)
       (seq 0 (lineCount h)))%list.

(** ** Project files (lines 304-330) *)

(** The content of the [project.json] that [saveProject] offers for
    download. *)
Definition saveProject (st : Editor) : Snapshot := toJSON (canvas st).

(** [loadProject] (lines 317-330) on a chosen file whose text is [json].
    The function passed to [loadFromJSON], which calls [saveState], runs as
    reviver: once for each object of the document, while the canvas still
    holds the old scene.  There is no [try]: when [JSON.parse] throws, the
    [onload] handler ends there. *)
Definition loadProject (json : Payload) (st : Editor) : Editor :=
  match loadFromJSON json saveState st with
  | Some st' => st'
  | None => st
  end.

(** ** Layer manager (lines 332-388) *)

Definition toggleVisibility (id : nat) (st : Editor) : Editor :=
  set_objects
    (update_object id (with_attrs (fun a => set_visible (negb (visible a)) a))
       (objects (canvas st))) st.

(** The body of [toggleLock] on one object. *)
Definition toggleLock_object (o : FabricObject) : FabricObject :=
  let isLocked := lockMovementX o in
  {| oid := oid o; attrs := attrs o;
     selectable := isLocked;
     evented := evented o; excludeFromExport := excludeFromExport o;
     lockMovementX := negb isLocked; lockMovementY := negb isLocked;
     lockScalingX := negb isLocked; lockScalingY := negb isLocked;
     lockRotation := negb isLocked |}.

Definition toggleLock (id : nat) (st : Editor) : Editor :=
  set_objects (update_object id toggleLock_object (objects (canvas st))) st.

(** [bringForward] and [sendBackward] (lines 379-388) call
    [canvas.bringForward] and [canvas.sendBackwards], which a Fabric 6 canvas
    does not have (it has [bringObjectForward] and [sendObjectBackwards]):
    the call throws a [TypeError] and the stack stays as it is. *)
Definition bringForward (id : nat) (st : Editor) : Outcome :=
  Thrown "TypeError" st.

Definition sendBackward (id : nat) (st : Editor) : Outcome :=
  Thrown "TypeError" st.

(** ** Pointer interaction, as Fabric delivers it to the component *)

(** A click reaches an object that is visible and evented, and selects it
    when it is selectable. *)
Definition clickable (o : FabricObject) : bool :=
  visible (attrs o) && evented o && selectable o.

(** A click on the object [id]; a click that reaches no object is
    [clickBackground]. *)
Definition clickObject (id : nat) (st : Editor) : Editor :=
  match find_object id (objects (canvas st)) with
  | Some o => if clickable o then setActiveObject o st else st
  | None => st
  end.

Definition clickBackground (st : Editor) : Editor := discardActiveObject st.

(** Area selection (enabled at line 59, [fabricCanvas.selection = true])
    collects the visible, selectable objects the rectangle meets; [evented]
    plays no part in it.  Here the rectangle meets the one object [id]. *)
Definition areaSelectable (o : FabricObject) : bool :=
  visible (attrs o) && selectable o.

Definition areaSelect (id : nat) (st : Editor) : Editor :=
  match find_object id (objects (canvas st)) with
  | Some o => if areaSelectable o then setActiveObject o st else st
  | None => st
  end.

(** An object can be dragged when a click reaches it and it is unlocked. *)
Definition draggable (o : FabricObject) : bool :=
  clickable o && negb (lockMovementX o) && negb (lockMovementY o).

(** One pointer move of a drag: Fabric places the target at the position [p]
    that follows the pointer and fires [object:moving]. *)
Definition pointerMove (id : nat) (p : number * number) (st : Editor) : Editor :=
  let moved := update_object id (with_attrs (set_position (fst p) (snd p)))
                 (objects (canvas st)) in
  set_objects (update_object id snapToGrid moved) st.

(** A drag of the object [id]: pointer down selects it, the pointer moves
    through the positions [p :: ps], and pointer up fires [object:modified]
    once. *)
Definition dragObject (id : nat) (p : number * number) (ps : list (number * number))
    (st : Editor) : Editor :=
  match find_object id (objects (canvas st)) with
  | Some o =>
      if draggable o then
        on_object_event
          (fold_left (fun s q => pointerMove id q s) (p :: ps)
             (setActiveObject o st))
      else st
  | None => st
  end.

(** ** Mount (lines 48-71) and the user's actions *)

(** The state after mount: an 800 by 600 canvas holding the grid, and the
    initial snapshot. *)
Definition mount : Editor :=
  let lines := drawGrid 800 600 0 in
  saveState
    {| canvas := {| objects := lines; activeObject := None |};
       history := []; redoStack := [];
       selectedObject := None; selectedText := None;
       isLayerModalOpen := false; nextId := List.length lines |}.

Inductive Action :=
| AddRectangle | AddCircle | AddText
| Undo | Redo
| ExportCanvas | SaveProject
| LoadProject (json : Payload)
| UploadImage (url : string) (w h : positive)
| ApplyFilter (filterType : string)
| OpenLayers | CloseLayers
| UpdateObjectColor (property value : string)
| UpdateTextProperty (property : string) (value : Value)
| ToggleVisibility (id : nat) | ToggleLock (id : nat)
| BringForward (id : nat) | SendBackward (id : nat)
| ClickObject (id : nat) | ClickBackground | AreaSelect (id : nat)
| DragObject (id : nat) (p : number * number) (ps : list (number * number)).

(** [exportCanvas] and [saveProject] only read the canvas and start a
    download; the toolbar's layer button calls [setIsLayerModalOpen(true)].
    A handler that throws leaves the state it had reached.  The pointer
    actions are those of the select tool.  Strokes of the freehand tools
    (lines 159-189), transforms by the control handles and typing into a
    text are not among the actions: the sessions of [reachable] are those
    without them. *)
Definition step (a : Action) (st : Editor) : Editor :=
  match a with
  | AddRectangle => addRectangle st
  | AddCircle => addCircle st
  | AddText => addText st
  | Undo => undo st
  | Redo => redo st
  | ExportCanvas => st
  | SaveProject => st
  | LoadProject json => loadProject json st
  | UploadImage url w h => handleImageUpload url w h st
  | ApplyFilter filterType => after (applyFilter filterType st)
  | OpenLayers => setIsLayerModalOpen true st
  | CloseLayers => setIsLayerModalOpen false st
  | UpdateObjectColor property value => updateObjectColor property value st
  | UpdateTextProperty property value => updateTextProperty property value st
  | ToggleVisibility id => toggleVisibility id st
  | ToggleLock id => toggleLock id st
  | BringForward id => after (bringForward id st)
  | SendBackward id => after (sendBackward id st)
  | ClickObject id => clickObject id st
  | ClickBackground => clickBackground st
  | AreaSelect id => areaSelect id st
  | DragObject id p ps => dragObject id p ps st
  end.

Definition run (acts : list Action) (st : Editor) : Editor :=
  fold_left (fun s a => step a s) acts st.

(** The states an editor session goes through. *)
Definition reachable (st : Editor) : Prop :=
  exists acts, st = run acts mount.

(** ** Vocabulary of the properties *)

(** Two canvases hold the same scene: the same objects with the same
    attributes in the same z-order (identities and interaction flags are not
    part of the scene). *)
Definition sameScene (c1 c2 : FabricCanvas) : Prop :=
  map attrs (objects c1) = map attrs (objects c2).

(** A payload is a well-formed project when it parses to a document with an
    array of objects. *)
Definition wellFormed (json : Payload) : bool :=
  match json with
  | Document (Some _) => true
  | _ => false
  end.

(** [y] is a multiple of the grid size, and no multiple is nearer to [x]. *)
Definition nearestOnGrid (x y : number) : Prop :=
  (exists m : Z, y = inject_Z m * gridSize) /\
  (forall m : Z, Qabs (y - x) <= Qabs (inject_Z m * gridSize - x)).

(** The displayed size of an object. *)
Definition scaledWidth (a : Attrs) : number := width a * scaleX a.
Definition scaledHeight (a : Attrs) : number := height a * scaleY a.

(** The number of grid lines on the mounted canvas; their identities are the
    numbers below it. *)
Definition gridLineCount : nat := List.length (drawGrid 800 600 0).

(** What the construction of the grid lines is meant to keep for the whole
    session, flag by flag. *)
Definition gridLineKept (o : FabricObject) : Prop :=
  (oid o < gridLineCount)%nat ->
  excludeFromExport o = true /\ evented o = false.

Definition keepsOutOfExport (st : Editor) : Prop :=
  (gridLineCount <= nextId st)%nat /\
  Forall gridLineKept (objects (canvas st)).

(** n-fold application. *)
Fixpoint times (n : nat) (f : Editor -> Editor) (st : Editor) : Editor :=
  match n with
  | O => st
  | S n' => times n' f (f st)
  end.

(** ** Drawing tools (lines 159-189) *)

(** The three tool buttons write the canvas' [isDrawingMode] and
    [freeDrawingBrush] and the hook [currentTool]; nothing else of the
    component reads or writes them, so they are a state of their own.  As
    for the other handlers, the component is mounted and the [if (canvas)]
    guards are taken. *)
Module Tools.

Inductive Tool := select | draw | erase.

(** A [PencilBrush] with the fields the handlers assign. *)
Record PencilBrush := mkBrush {
  color : string;
  width : number;
  globalCompositeOperation : option string
}.

Record State := mkState {
  isDrawingMode : bool;
  freeDrawingBrush : option PencilBrush;
  currentTool : Tool
}.

Definition activateSelect (t : State) : State :=
  {| isDrawingMode := false;
     freeDrawingBrush := freeDrawingBrush t;
     currentTool := select |}.

Definition activateBrush (t : State) : State :=
  {| isDrawingMode := true;
     freeDrawingBrush :=
       Some {| color := "#000000"; width := 5;
               globalCompositeOperation := None |};
     currentTool := draw |}.

Definition activateEraser (t : State) : State :=
  {| isDrawingMode := true;
     freeDrawingBrush :=
       Some {| color := "rgba(0,0,0,1)"; width := 10;
               globalCompositeOperation := Some "destination-out" |};
     currentTool := erase |}.

Inductive Activation := ActivateSelect | ActivateBrush | ActivateEraser.

Definition activate (a : Activation) (t : State) : State :=
  match a with
  | ActivateSelect => activateSelect t
  | ActivateBrush => activateBrush t
  | ActivateEraser => activateEraser t
  end.

Definition activations (l : list Activation) (t : State) : State :=
  fold_left (fun s a => activate a s) l t.

(** Drawing mode is on exactly under the two drawing tools, and then the
    brush is the one the current tool installs. *)
Definition agrees (t : State) : Prop :=
  match currentTool t with
  | select => isDrawingMode t = false
  | draw =>
      isDrawingMode t = true /\
      freeDrawingBrush t
      = Some {| color := "#000000"; width := 5;
                globalCompositeOperation := None |}
  | erase =>
      isDrawingMode t = true /\
      freeDrawingBrush t
      = Some {| color := "rgba(0,0,0,1)"; width := 10;
                globalCompositeOperation := Some "destination-out" |}
  end.

End Tools.

(** ** Further vocabulary *)

(** An object as [loadFromJSON] leaves it: every interaction flag at its
    default. *)
Definition defaultFlags (o : FabricObject) : Prop :=
  selectable o = true /\ evented o = true /\ excludeFromExport o = false /\
  lockMovementX o = false /\ lockMovementY o = false /\
  lockScalingX o = false /\ lockScalingY o = false /\ lockRotation o = false.

(** The state [toggleLock] leaves an object in: the five lock flags agree
    and [selectable] is their negation. *)
Definition lockAgrees (o : FabricObject) : Prop :=
  lockMovementY o = lockMovementX o /\ lockScalingX o = lockMovementX o /\
  lockScalingY o = lockMovementX o /\ lockRotation o = lockMovementX o /\
  selectable o = negb (lockMovementX o).

(** Both selection hooks are empty. *)
Definition hooksEmpty (st : Editor) : Prop :=
  selectedObject st = None /\ selectedText st = None.

(** The snapshots that the [object:removed] listener records while [clear]
    empties a canvas whose stack is [os]: after each removal, the export of
    what is left. *)
Fixpoint removalSnapshots (os : list FabricObject) : list Snapshot :=
  match os with
  | [] => []
  | _ :: rest =>
      toJSON {| objects := rest; activeObject := None |} :: removalSnapshots rest
  end.

(** The first entry of [history] is the snapshot taken at mount, of a canvas
    that exports nothing. *)
Definition startsAtMount (st : Editor) : Prop :=
  exists rest, history st = [] :: rest.

(** The toolbar actions that construct an object and add it to the canvas
    (lines 101-142). *)
Definition isInsert (a : Action) : bool :=
  match a with
  | AddRectangle | AddCircle | AddText => true
  | _ => false
  end.

(** A line from top to bottom of a canvas of height [h] at abscissa [x],
    and a line from left to right of a canvas of width [w] at ordinate [y]. *)
Definition verticalAt (x h : number) (o : FabricObject) : Prop :=
  x1 (attrs o) = x /\ x2 (attrs o) = x /\ y1 (attrs o) = 0 /\ y2 (attrs o) = h.

Definition horizontalAt (y w : number) (o : FabricObject) : Prop :=
  y1 (attrs o) = y /\ y2 (attrs o) = y /\ x1 (attrs o) = 0 /\ x2 (attrs o) = w.

(** * Properties *)

(** ** Projections of the state updates *)

Lemma find_update_object id f os :
  (forall o, oid (f o) = oid o) ->
  find_object id (update_object id f os) = option_map f (find_object id os).
Proof.
  intros Hf. unfold find_object, update_object.
  induction os as [|o os IH]; simpl; [reflexivity|].
  destruct (Nat.eqb (oid o) id) eqn:E.
  - rewrite Hf, E. reflexivity.
  - rewrite E. exact IH.
Qed.

Lemma update_object_twice id f g os :
  (forall o, oid (f o) = oid o) ->
  update_object id g (update_object id f os)
  = update_object id (fun o => g (f o)) os.
Proof.
  intros Hf. unfold update_object. rewrite map_map.
  apply map_ext. intros o.
  destruct (Nat.eqb (oid o) id) eqn:E.
  - rewrite Hf, E. reflexivity.
  - rewrite E. reflexivity.
Qed.

Lemma update_object_ext id f g os :
  (forall o, f o = g o) -> update_object id f os = update_object id g os.
Proof.
  intros H. unfold update_object. apply map_ext. intros o.
  destruct (Nat.eqb (oid o) id); [apply H | reflexivity].
Qed.

Lemma oid_with_attrs f o : oid (with_attrs f o) = oid o.
Proof. reflexivity. Qed.

(** ** The replay: [clear], [canvas.add] and [loadFromJSON] *)

Lemma calls_S n f st : calls (S n) f st = f (calls n f st).
Proof.
  revert st. induction n as [|n IH]; intros st; [reflexivity|].
  change (calls (S (S n)) f st) with (calls (S n) f (f st)).
  rewrite IH. reflexivity.
Qed.

Lemma calls_id n st : calls n (fun s : Editor => s) st = st.
Proof. induction n as [|n IH]; simpl; auto. Qed.

Lemma calls_saveState_canvas n st : canvas (calls n saveState st) = canvas st.
Proof.
  revert st. induction n as [|n IH]; intros st; simpl; [reflexivity|].
  rewrite IH. reflexivity.
Qed.

Lemma calls_saveState_nextId n st : nextId (calls n saveState st) = nextId st.
Proof.
  revert st. induction n as [|n IH]; intros st; simpl; [reflexivity|].
  rewrite IH. reflexivity.
Qed.

Lemma calls_saveState_selected n st :
  selectedObject (calls n saveState st) = selectedObject st /\
  selectedText (calls n saveState st) = selectedText st.
Proof.
  revert st. induction n as [|n IH]; intros st; simpl; [auto|].
  destruct (IH (saveState st)) as (H1 & H2). rewrite H1, H2. auto.
Qed.

Lemma calls_saveState_history n st :
  history (calls n saveState st) = (history st ++ repeat (toJSON (canvas st)) n)%list.
Proof.
  revert st. induction n as [|n IH]; intros st; simpl.
  - rewrite app_nil_r. reflexivity.
  - rewrite IH. simpl. rewrite <- app_assoc. reflexivity.
Qed.

Lemma calls_saveState_redoStack n st :
  redoStack (calls n saveState st) = match n with O => redoStack st | S _ => [] end.
Proof. destruct n as [|n]; [reflexivity|]. rewrite calls_S. reflexivity. Qed.

Lemma setHistory_same st : setHistory (history st) st = st.
Proof. destruct st; reflexivity. Qed.

Lemma calls_setHistory_same n st : calls n (setHistory (history st)) st = st.
Proof.
  induction n as [|n IH]; simpl; [reflexivity|].
  rewrite setHistory_same. exact IH.
Qed.

(** *** [clear] *)

Lemma remove_first_objects n : forall st,
  objects (canvas (remove_first n st)) = skipn n (objects (canvas st)).
Proof.
  induction n as [|n IH]; intros st; [reflexivity|].
  simpl remove_first. rewrite IH. simpl.
  destruct (objects (canvas st)) as [|o os]; simpl; [apply skipn_nil | reflexivity].
Qed.

Lemma remove_first_history os : forall st,
  objects (canvas st) = os ->
  history (remove_first (List.length os) st)
  = (history st ++ removalSnapshots os)%list.
Proof.
  induction os as [|o os IH]; intros st Hos.
  - simpl. symmetry. apply app_nil_r.
  - simpl remove_first. rewrite IH by (simpl; rewrite Hos; reflexivity).
    simpl. rewrite Hos. simpl. rewrite <- app_assoc. reflexivity.
Qed.

Lemma remove_first_nextId n : forall st, nextId (remove_first n st) = nextId st.
Proof.
  induction n as [|n IH]; intros st; [reflexivity|].
  simpl remove_first. rewrite IH. reflexivity.
Qed.

Lemma remove_first_activeObject n : forall st,
  activeObject (canvas (remove_first n st)) = activeObject (canvas st).
Proof.
  induction n as [|n IH]; intros st; [reflexivity|].
  simpl remove_first. rewrite IH. reflexivity.
Qed.

Lemma remove_first_selected n : forall st,
  selectedObject (remove_first n st) = selectedObject st /\
  selectedText (remove_first n st) = selectedText st.
Proof.
  induction n as [|n IH]; intros st; [split; reflexivity|].
  simpl remove_first.
  destruct (IH (on_object_event (set_objects (tl (objects (canvas st))) st)))
    as [H1 H2].
  rewrite H1, H2. split; reflexivity.
Qed.

Lemma remove_first_redoStack n : forall st,
  n <> 0%nat -> redoStack (remove_first n st) = [].
Proof.
  induction n as [|n IH]; intros st Hn; [congruence|].
  simpl remove_first. destruct n as [|n]; [reflexivity|].
  apply IH. discriminate.
Qed.

Lemma discardActiveObject_objects st :
  objects (canvas (discardActiveObject st)) = objects (canvas st).
Proof. unfold discardActiveObject. destruct (activeObject (canvas st)); reflexivity. Qed.

Lemma discardActiveObject_history st :
  history (discardActiveObject st) = history st.
Proof. unfold discardActiveObject. destruct (activeObject (canvas st)); reflexivity. Qed.

Lemma discardActiveObject_nextId st :
  nextId (discardActiveObject st) = nextId st.
Proof. unfold discardActiveObject. destruct (activeObject (canvas st)); reflexivity. Qed.

Lemma discardActiveObject_redoStack st :
  redoStack (discardActiveObject st) = redoStack st.
Proof. unfold discardActiveObject. destruct (activeObject (canvas st)); reflexivity. Qed.

Lemma clear_objects st : objects (canvas (clear st)) = [].
Proof. unfold clear. rewrite remove_first_objects. apply skipn_all. Qed.

Lemma clear_history st :
  history (clear st) = (history st ++ removalSnapshots (objects (canvas st)))%list.
Proof.
  unfold clear.
  rewrite remove_first_history by reflexivity.
  rewrite discardActiveObject_history, discardActiveObject_objects. reflexivity.
Qed.

Lemma clear_activeObject st : activeObject (canvas (clear st)) = None.
Proof.
  unfold clear. rewrite remove_first_activeObject.
  unfold discardActiveObject.
  destruct (activeObject (canvas st)) eqn:E; [reflexivity | exact E].
Qed.

Lemma clear_nextId st : nextId (clear st) = nextId st.
Proof.
  unfold clear. rewrite remove_first_nextId. apply discardActiveObject_nextId.
Qed.

Lemma clear_redoStack st :
  objects (canvas st) <> [] -> redoStack (clear st) = [].
Proof.
  intros H. unfold clear. apply remove_first_redoStack.
  rewrite discardActiveObject_objects.
  destruct (objects (canvas st)); [congruence | discriminate].
Qed.

Lemma clear_redoStack_empty st :
  objects (canvas st) = [] -> redoStack (clear st) = redoStack st.
Proof.
  intros H. unfold clear. rewrite discardActiveObject_objects, H. simpl.
  apply discardActiveObject_redoStack.
Qed.

Lemma removalSnapshots_length os :
  List.length (removalSnapshots os) = List.length os.
Proof. induction os as [|o os IH]; simpl; [reflexivity | rewrite IH; reflexivity]. Qed.

Lemma removalSnapshots_last os d :
  os <> [] -> last (removalSnapshots os) d = [].
Proof.
  induction os as [|o os IH]; intros Hne; [congruence|].
  destruct os as [|o' os']; [reflexivity|].
  change (removalSnapshots (o :: o' :: os'))
    with (toJSON {| objects := o' :: os'; activeObject := None |}
          :: removalSnapshots (o' :: os')).
  change (removalSnapshots (o' :: os'))
    with (toJSON {| objects := os'; activeObject := None |} :: removalSnapshots os') in *.
  simpl last. apply IH. discriminate.
Qed.

(** *** The revived objects and [canvas.add] *)

Lemma revive_exported first l :
  map toObject (filter (fun o => negb (excludeFromExport o)) (revive first l)) = l.
Proof.
  revert first. induction l as [|a l IH]; intros first; simpl; [reflexivity|].
  rewrite IH. reflexivity.
Qed.

Lemma revive_attrs first l : map attrs (revive first l) = l.
Proof.
  revert first. induction l as [|a l IH]; intros first; simpl; [reflexivity|].
  rewrite IH. reflexivity.
Qed.

Lemma revive_flags first l :
  Forall (fun o => selectable o = true /\ evented o = true /\
                   excludeFromExport o = false /\ lockMovementX o = false)
         (revive first l).
Proof.
  revert first. induction l as [|a l IH]; intros first; simpl; constructor.
  - repeat split.
  - apply IH.
Qed.

Lemma revive_defaultFlags first l : Forall defaultFlags (revive first l).
Proof.
  revert first. induction l as [|a l IH]; intros first; simpl; constructor.
  - repeat split.
  - apply IH.
Qed.

Lemma revive_oid first l :
  Forall (fun o => (first <= oid o)%nat) (revive first l).
Proof.
  revert first. induction l as [|a l IH]; intros first; simpl; constructor.
  - simpl. lia.
  - apply (Forall_impl _ (P := fun o => (S first <= oid o)%nat)); [|apply IH].
    intros o Ho. lia.
Qed.

Lemma add_all_objects l st :
  objects (canvas (add_all l st)) = (objects (canvas st) ++ revive (nextId st) l)%list.
Proof. unfold add_all, on_object_event. rewrite calls_saveState_canvas. reflexivity. Qed.

Lemma add_all_activeObject l st :
  activeObject (canvas (add_all l st)) = activeObject (canvas st).
Proof. unfold add_all, on_object_event. rewrite calls_saveState_canvas. reflexivity. Qed.

Lemma add_all_nextId l st : nextId (add_all l st) = (nextId st + List.length l)%nat.
Proof. unfold add_all, on_object_event. rewrite calls_saveState_nextId. reflexivity. Qed.

Lemma add_all_selected l st :
  selectedObject (add_all l st) = selectedObject st /\
  selectedText (add_all l st) = selectedText st.
Proof. unfold add_all, on_object_event. exact (calls_saveState_selected _ _). Qed.

Lemma add_all_history l st :
  history (add_all l st)
  = (history st
     ++ repeat (toJSON {| objects := objects (canvas st) ++ revive (nextId st) l;
                          activeObject := activeObject (canvas st) |})
               (List.length l))%list.
Proof. unfold add_all, on_object_event. rewrite calls_saveState_history. reflexivity. Qed.

Lemma add_all_redoStack_nil st : redoStack (add_all [] st) = redoStack st.
Proof. reflexivity. Qed.

Lemma redoStack_add_all l st :
  l <> [] -> redoStack (add_all l st) = [].
Proof.
  intros Hl. unfold add_all, on_object_event. rewrite calls_saveState_redoStack.
  destruct l; [congruence | reflexivity].
Qed.

(** *** Canvas, history and redo stack after a replay of the array [l] *)

Lemma replay_objects l st :
  objects (canvas (add_all l (clear st))) = revive (nextId st) l.
Proof. rewrite add_all_objects, clear_objects, clear_nextId. reflexivity. Qed.

Lemma replay_toJSON l st : toJSON (canvas (add_all l (clear st))) = l.
Proof. unfold toJSON. rewrite replay_objects. apply revive_exported. Qed.

Lemma replay_activeObject l st : activeObject (canvas (add_all l (clear st))) = None.
Proof. rewrite add_all_activeObject. apply clear_activeObject. Qed.

(** One entry after each removal, of what is left on the canvas, then one
    entry for each object added, each the whole array [l]. *)
Lemma replay_history l st :
  history (add_all l (clear st))
  = (history st ++ removalSnapshots (objects (canvas st))
     ++ repeat l (List.length l))%list.
Proof.
  rewrite add_all_history, clear_history, clear_objects, clear_nextId.
  unfold toJSON. simpl. rewrite revive_exported, <- app_assoc. reflexivity.
Qed.

Lemma replay_redoStack l st :
  objects (canvas st) <> [] \/ l <> [] ->
  redoStack (add_all l (clear st)) = [].
Proof.
  intros H. destruct l as [|a l].
  - destruct H as [H|H]; [|congruence]. simpl. apply clear_redoStack, H.
  - apply redoStack_add_all. discriminate.
Qed.

Lemma replay_redoStack_empty st :
  objects (canvas st) = [] -> redoStack (add_all [] (clear st)) = redoStack st.
Proof. intros H. rewrite add_all_redoStack_nil. apply clear_redoStack_empty, H. Qed.

(** The last entry of [history] after a replay that fires an event is the
    replayed array. *)
Lemma replay_history_last l st :
  objects (canvas st) <> [] \/ l <> [] ->
  last (history (add_all l (clear st))) [] = l.
Proof.
  intros H. rewrite replay_history.
  destruct l as [|a l].
  - destruct H as [H|H]; [|congruence].
    simpl repeat. rewrite app_nil_r.
    pose proof (removalSnapshots_length (objects (canvas st))) as Hlen.
    destruct (exists_last (l := removalSnapshots (objects (canvas st))))
      as (r & x & Hr).
    { intros E. rewrite E in Hlen. destruct (objects (canvas st)); [congruence|discriminate]. }
    pose proof (removalSnapshots_last (objects (canvas st)) [] H) as Hl.
    rewrite Hr in *. rewrite app_assoc, last_last. rewrite last_last in Hl. exact Hl.
  - rewrite app_assoc.
    change (List.length (a :: l)) with (S (List.length l)).
    rewrite <- (Nat.add_1_r (List.length l)), repeat_app, app_assoc. simpl repeat.
    apply last_last.
Qed.

Lemma nth_last_removelast {A} (l : list A) (d : A) :
  nth (List.length l - 2) l d = last (removelast l) d \/ (List.length l <= 1)%nat.
Proof.
  destruct (Nat.le_gt_cases (List.length l) 1) as [H|H]; [right; exact H|left].
  destruct (exists_last (l := l)) as (l' & x & ->).
  { intros ->. simpl in H. lia. }
  rewrite removelast_last, length_app in *. simpl in *.
  destruct (exists_last (l := l')) as (l'' & y & ->).
  { intros ->. simpl in H. lia. }
  rewrite last_last, length_app. simpl.
  replace (List.length l'' + 1 + 1 - 2)%nat with (List.length l'') by lia.
  rewrite <- app_assoc. simpl app. rewrite nth_middle. reflexivity.
Qed.

(** [undo] and [redo] past their guards and [loadProject] on a document, as
    replays.  The functions that [undo] and [redo] pass to [loadFromJSON]
    change nothing: the one of [undo] writes the value [history] has at that
    point. *)
Lemma undo_unfold st :
  (1 < List.length (history st))%nat ->
  undo st
  = add_all (last (removelast (history st)) [])
      (clear (setHistory (removelast (history st))
                (setRedoStack (redoStack st ++ [last (history st) []]) st))).
Proof.
  intros Hlen. unfold undo.
  destruct (nth_last_removelast (history st) []) as [Hnth|Hle]; [|lia].
  destruct (Nat.ltb_spec 1 (List.length (history st))); [|lia].
  unfold loadFromJSON, stringify. rewrite Hnth.
  set (st1 := setHistory _ _).
  change (removelast (history st)) with (history st1).
  rewrite calls_setHistory_same. reflexivity.
Qed.

Lemma undo_guard st : (List.length (history st) <= 1)%nat -> undo st = st.
Proof.
  intros H. unfold undo.
  destruct (Nat.ltb_spec 1 (List.length (history st))); [lia | reflexivity].
Qed.

Lemma redo_unfold st :
  redoStack st <> [] ->
  redo st
  = add_all (last (redoStack st) [])
      (clear (setHistory (history st ++ [last (redoStack st) []])
                (setRedoStack (removelast (redoStack st)) st))).
Proof.
  intros Hne. unfold redo.
  destruct (redoStack st) as [|r rs] eqn:E; [congruence|].
  change (Nat.ltb 0 (List.length (r :: rs))) with true. cbv iota.
  unfold loadFromJSON, stringify. rewrite calls_id. reflexivity.
Qed.

Lemma redo_empty_stack st : redoStack st = [] -> redo st = st.
Proof. intros H. unfold redo. rewrite H. reflexivity. Qed.

Lemma loadProject_unfold objs st :
  loadProject (Document objs) st
  = let l := match objs with Some l => l | None => [] end in
    add_all l (clear (calls (List.length l) saveState st)).
Proof. reflexivity. Qed.

Lemma loadProject_document_objects objs st :
  objects (canvas (loadProject (Document objs) st))
  = revive (nextId st) (match objs with Some l => l | None => [] end).
Proof.
  rewrite loadProject_unfold. cbv zeta.
  rewrite replay_objects, calls_saveState_nextId. reflexivity.
Qed.

(** The state after [undo], past its guard. *)
Lemma undo_replay (st : Editor) :
  (1 < List.length (history st))%nat ->
  history (undo st)
  = (removelast (history st) ++ removalSnapshots (objects (canvas st))
     ++ repeat (last (removelast (history st)) [])
          (List.length (last (removelast (history st)) [])))%list /\
  toJSON (canvas (undo st)) = last (removelast (history st)) [] /\
  toJSON (canvas (undo st)) = last (history (undo st)) [] /\
  objects (canvas (undo st))
  = revive (nextId st) (last (removelast (history st)) []) /\
  Forall defaultFlags (objects (canvas (undo st))) /\
  activeObject (canvas (undo st)) = None.
Proof.
  intros Hlen. rewrite undo_unfold by exact Hlen.
  set (prev := last (removelast (history st)) []).
  set (st1 := setHistory _ _).
  split; [apply (replay_history prev st1)|].
  split; [apply replay_toJSON|].
  split.
  - rewrite replay_toJSON.
    destruct (objects (canvas st)) as [|o os] eqn:Eo.
    + destruct prev as [|a p] eqn:Ep.
      * rewrite replay_history. simpl. unfold st1. simpl. rewrite Eo. simpl.
        rewrite app_nil_r. symmetry. exact Ep.
      * symmetry. apply replay_history_last. right. discriminate.
    + symmetry. apply replay_history_last. left.
      unfold st1. simpl. rewrite Eo. discriminate.
  - split; [apply (replay_objects prev st1)|].
    split; [rewrite replay_objects; apply revive_defaultFlags|].
    apply replay_activeObject.
Qed.

(** ** C3: undo on the initial history *)

(** C3.  When [history] holds at most the initial snapshot, [undo] does
    nothing: canvas, history and redo stack (the whole state) are as before.
    The guard [history.length > 1] is not taken and no error is raised. *)
Theorem undo_noop_without_applied_history (st : Editor) :
  (List.length (history st) <= 1)%nat -> undo st = st.
Proof.
  intros H. unfold undo.
  destruct (Nat.ltb_spec 1 (List.length (history st))) as [Hlt|_].
  - lia.
  - reflexivity.
Qed.

Lemma undo_noop_without_applied_history_witness : undo mount = mount.
Proof.
  apply (undo_noop_without_applied_history mount).
  vm_compute. lia.
Defined.

(** ** C2: a new command empties the redo stack *)

(** C2.  Every call of [saveState] leaves the redo stack empty, and a [redo]
    that follows it changes nothing at all; so it is after each insert
    action, which ends with that call, and after a property edit whenever
    the hook holds an object (otherwise the edit does nothing). *)
Theorem saveState_clears_redoStack (st : Editor) :
  redoStack (saveState st) = [] /\
  redo (saveState st) = saveState st /\
  redo (addRectangle st) = addRectangle st /\
  redo (addCircle st) = addCircle st /\
  redo (addText st) = addText st /\
  (forall property value,
     match selectedObject st with
     | Some _ => redo (updateObjectColor property value st)
                 = updateObjectColor property value st
     | None => updateObjectColor property value st = st
     end) /\
  (forall property value,
     match selectedText st with
     | Some _ => redo (updateTextProperty property value st)
                 = updateTextProperty property value st
     | None => updateTextProperty property value st = st
     end).
Proof.
  repeat split; intros; try (apply redo_empty_stack; reflexivity).
  - unfold updateObjectColor. destruct (selectedObject st); [|reflexivity].
    apply redo_empty_stack; reflexivity.
  - unfold updateTextProperty. destruct (selectedText st); [|reflexivity].
    apply redo_empty_stack; reflexivity.
Qed.

(** ** C1: undo and redo over a sequence of commands *)

(** The replay of [undo] goes through [canvas.add], whose [object:added]
    listener calls [saveState]: whenever the snapshot that [undo] restores
    holds an object, the entry [undo] has just pushed on the redo stack is
    discarded, and [redo] has nothing to replay. *)
Lemma undo_discards_redoStack st :
  (1 < List.length (history st))%nat ->
  nth (List.length (history st) - 2) (history st) [] <> [] ->
  redoStack (undo st) = [] /\ redo (undo st) = undo st.
Proof.
  intros Hlen Hprev.
  assert (H : redoStack (undo st) = []).
  { rewrite undo_unfold by exact Hlen. apply redoStack_add_all.
    destruct (nth_last_removelast (history st) []) as [Hnth|Hle]; [|lia].
    rewrite <- Hnth. exact Hprev. }
  split; [exact H | apply redo_empty_stack; exact H].
Qed.

(** C1 (the code departs from it).  Two commands from the initial state, a
    rectangle and an image import; two undos, two redos.  Before the first
    undo the canvas serializes to the rectangle.  The first undo replays that
    same scene and, through the listeners, leaves the redo stack empty and 34
    entries in [history]; the second one replays the empty scene that the
    first replay recorded when it removed the rectangle; the two redos find
    nothing to replay.  The canvas ends empty. *)
Theorem undo_redo_loses_commands :
  let before :=
    run [AddRectangle; UploadImage "data:image/png;base64,iVBORw0KGgo=" 600 400] mount in
  let after := times 2 redo (times 2 undo before) in
  toJSON (canvas before) = [rectAttrs] /\
  history before = [[]; [rectAttrs]; [rectAttrs]] /\
  toJSON (canvas (undo before)) = [rectAttrs] /\
  List.length (history (undo before)) = 34%nat /\
  redoStack (undo before) = [] /\
  toJSON (canvas (times 2 undo before)) = [] /\
  redoStack (times 2 undo before) = [] /\
  toJSON (canvas after) = [] /\
  toJSON (canvas after) <> toJSON (canvas before).
Proof.
  vm_compute. repeat split. discriminate.
Qed.

(** ** C6: snapping a drag to the grid *)

Lemma Math_round_bounds (x : number) :
  inject_Z (Math_round x) - (1 # 2) <= x /\ x < inject_Z (Math_round x) + (1 # 2).
Proof.
  unfold Math_round.
  pose proof (Qfloor_le (x + (1 # 2))) as Hlo.
  pose proof (Qlt_floor (x + (1 # 2))) as Hhi.
  rewrite inject_Z_plus in Hhi. change (inject_Z 1) with 1 in Hhi.
  split; lra.
Qed.

Lemma snap_within_half_cell (x : number) :
  snap x - 25 <= x /\ x < snap x + 25.
Proof.
  unfold snap, gridSize.
  destruct (Math_round_bounds (x / 50)) as [Hlo Hhi].
  generalize dependent (inject_Z (Math_round (x / 50))). intros k Hlo Hhi.
  assert (Hx : x / 50 == x * (1 # 50)) by (unfold Qdiv; reflexivity).
  generalize dependent (x / 50). intros y Hlo Hhi Hx.
  split; lra.
Qed.

Lemma snap_nearest (x : number) : nearestOnGrid x (snap x).
Proof.
  split.
  - exists (Math_round (x / gridSize)). reflexivity.
  - intros m.
    destruct (snap_within_half_cell x) as [Hlo Hhi].
    set (k := Math_round (x / gridSize)) in *.
    assert (Hs : snap x == inject_Z k * 50) by reflexivity.
    unfold gridSize.
    destruct (Z.lt_trichotomy m k) as [Hlt | [Heq | Hgt]].
    + assert (Hm : inject_Z m <= inject_Z k - 1).
      { assert (m <= k - 1)%Z as Hz by lia.
        rewrite Zle_Qle in Hz. unfold Z.sub in Hz.
        rewrite inject_Z_plus in Hz. change (inject_Z (- (1))) with (- (1)) in Hz.
        lra. }
      apply Qabs_case; intros; apply Qabs_case; intros; lra.
    + subst m. rewrite Hs. apply Qle_refl.
    + assert (Hm : inject_Z k + 1 <= inject_Z m).
      { assert (k + 1 <= m)%Z as Hz by lia.
        rewrite Zle_Qle in Hz.
        rewrite inject_Z_plus in Hz. change (inject_Z 1) with 1 in Hz.
        lra. }
      apply Qabs_case; intros; apply Qabs_case; intros; lra.
Qed.

Lemma pointerMove_objects id p st :
  objects (canvas (pointerMove id p st))
  = update_object id (with_attrs (set_position (snap (fst p)) (snap (snd p))))
      (objects (canvas st)).
Proof.
  unfold pointerMove. simpl.
  rewrite update_object_twice by (intros; apply oid_with_attrs).
  apply update_object_ext. intros o. reflexivity.
Qed.

Lemma set_position_overrides id l t l' t' os :
  update_object id (with_attrs (set_position l' t'))
    (update_object id (with_attrs (set_position l t)) os)
  = update_object id (with_attrs (set_position l' t')) os.
Proof.
  rewrite update_object_twice by (intros; apply oid_with_attrs).
  apply update_object_ext. intros o. reflexivity.
Qed.

Lemma last_cons_default {A} (q : A) (l : list A) (d : A) :
  last (q :: l) d = last l q.
Proof.
  revert q d. induction l as [|a l IH]; intros q d; [reflexivity|].
  change (last (q :: a :: l) d) with (last (a :: l) d).
  rewrite (IH a d). symmetry. apply IH.
Qed.

(** The pointer moves of a drag leave the object at the snapped last
    position and touch neither history nor redo stack. *)
Lemma pointerMoves_result id ps : forall p st,
  let st' := fold_left (fun s q => pointerMove id q s) ps (pointerMove id p st) in
  objects (canvas st')
  = update_object id
      (with_attrs (set_position (snap (fst (last ps p))) (snap (snd (last ps p)))))
      (objects (canvas st))
  /\ history st' = history st /\ redoStack st' = redoStack st.
Proof.
  induction ps as [|q ps IH]; intros p st; simpl.
  - split; [apply pointerMove_objects | split; reflexivity].
  - destruct (IH q (pointerMove id p st)) as (Ho & Hh & Hr).
    rewrite Ho, Hh, Hr, pointerMove_objects, set_position_overrides.
    change (match ps with [] => q | _ :: _ => last ps p end) with (last (q :: ps) p).
    rewrite last_cons_default.
    split; [reflexivity | split; reflexivity].
Qed.

(** C6.  A drag of a draggable object through the positions [p :: ps]
    leaves it, and it alone, at the grid point nearest to the last position
    in each coordinate, and appends exactly one entry to [history], the
    snapshot of that final canvas: no position the drag went through on the
    way is recorded. *)
Theorem drag_commits_snapped_position_once
    (st : Editor) (id : nat) (o : FabricObject)
    (p : number * number) (ps : list (number * number)) :
  find_object id (objects (canvas st)) = Some o ->
  draggable o = true ->
  objects (canvas (dragObject id p ps st))
  = update_object id
      (with_attrs (set_position (snap (fst (last ps p))) (snap (snd (last ps p)))))
      (objects (canvas st)) /\
  (exists o', find_object id (objects (canvas (dragObject id p ps st))) = Some o' /\
              left (attrs o') = snap (fst (last ps p)) /\
              top (attrs o') = snap (snd (last ps p))) /\
  nearestOnGrid (fst (last ps p)) (snap (fst (last ps p))) /\
  nearestOnGrid (snd (last ps p)) (snap (snd (last ps p))) /\
  history (dragObject id p ps st)
  = (history st ++ [toJSON (canvas (dragObject id p ps st))])%list.
Proof.
  intros Hfind Hdrag.
  unfold dragObject. rewrite Hfind, Hdrag.
  destruct (pointerMoves_result id ps p (setActiveObject o st)) as (Ho & Hh & _).
  simpl fold_left.
  set (st' := fold_left _ ps _) in *.
  assert (Hobj : objects (canvas (on_object_event st'))
                 = update_object id
                     (with_attrs (set_position (snap (fst (last ps p)))
                                               (snap (snd (last ps p)))))
                     (objects (canvas st))).
  { change (objects (canvas (on_object_event st'))) with (objects (canvas st')).
    rewrite Ho. reflexivity. }
  split; [exact Hobj|].
  split.
  - rewrite Hobj, find_update_object by (intros; apply oid_with_attrs).
    rewrite Hfind. simpl. eexists. split; [reflexivity|]. split; reflexivity.
  - split; [apply snap_nearest|]. split; [apply snap_nearest|].
    change (history (on_object_event st'))
      with (history st' ++ [toJSON (canvas st')])%list.
    rewrite Hh. reflexivity.
Qed.

(** The scenario of the specification: a rectangle lying at (10,10) is
    dragged to (47,53), by way of (28,31).  It ends at (50,50) and the drag
    adds one history entry. *)
Lemma drag_commits_snapped_position_once_witness :
  let st := loadProject (Document (Some [set_position 10 10 rectAttrs])) mount in
  let st' := dragObject 30 (28, 31) [(47, 53)] st in
  exists o',
    find_object 30 (objects (canvas st')) = Some o' /\
    left (attrs o') = 50 /\ top (attrs o') = 50 /\
    List.length (history st') = S (List.length (history st)).
Proof.
  intros st st'.
  assert (Hfind0 : find_object 30 (objects (canvas st))
                   = Some (newObject 30 (set_position 10 10 rectAttrs)))
    by (vm_compute; reflexivity).
  assert (Hdrag : draggable (newObject 30 (set_position 10 10 rectAttrs)) = true)
    by (vm_compute; reflexivity).
  destruct (drag_commits_snapped_position_once st 30 _ (28, 31) [(47, 53)]
              Hfind0 Hdrag)
    as (_ & (o' & Hfind & Hleft & Htop) & _ & _ & Hhist).
  exists o'. split; [exact Hfind|].
  split; [rewrite Hleft; vm_compute; reflexivity|].
  split; [rewrite Htop; vm_compute; reflexivity|].
  unfold st'. rewrite Hhist, length_app. apply Nat.add_1_r.
Defined.

(** ** C4 and C5: project files *)

(** C4 as stated fails on the mounted editor: its canvas holds the thirty
    grid lines, the project written from it holds no object, and the canvas
    read back from that project is empty.  It fails on the interaction flags
    too: a rectangle locked in the layer panel comes back unlocked. *)
Lemma roundtrip_drops_grid_lines :
  List.length (objects (canvas mount)) = 30%nat /\
  saveProject mount = [] /\
  objects (canvas (loadProject (stringify (saveProject mount)) mount)) = [] /\
  ~ sameScene (canvas (loadProject (stringify (saveProject mount)) mount))
              (canvas mount) /\
  (let st := run [AddRectangle; OpenLayers; ToggleLock 30] mount in
   option_map lockMovementX (find_object 30 (objects (canvas st))) = Some true /\
   map lockMovementX
     (objects (canvas (loadProject (stringify (saveProject st)) st))) = [false]).
Proof.
  assert (H : objects (canvas (loadProject (stringify (saveProject mount)) mount)) = [])
    by (vm_compute; reflexivity).
  split; [vm_compute; reflexivity|].
  split; [vm_compute; reflexivity|].
  split; [exact H|].
  split; [unfold sameScene; rewrite H; vm_compute; discriminate|].
  vm_compute. split; reflexivity.
Qed.

(** C4, amended.  Writing a project and reading it back rebuilds exactly the
    objects of the scene that are not flagged [excludeFromExport], in the
    same z-order and with the same serialized attributes; the rebuilt objects
    carry the default interaction flags, and the project written from the
    reloaded canvas is the same document. *)
Theorem project_roundtrip_exported_objects (st : Editor) :
  let st' := loadProject (stringify (saveProject st)) st in
  map toObject (objects (canvas st'))
  = map toObject
      (filter (fun o => negb (excludeFromExport o)) (objects (canvas st))) /\
  Forall (fun o => selectable o = true /\ evented o = true /\
                   excludeFromExport o = false /\ lockMovementX o = false)
         (objects (canvas st')) /\
  saveProject st' = saveProject st.
Proof.
  intros st'. unfold st', stringify.
  unfold saveProject at 3. unfold toJSON.
  rewrite loadProject_document_objects.
  split; [apply revive_attrs|].
  split; [apply revive_flags|].
  apply revive_exported.
Qed.

(** C5 as stated fails: the text [{}] parses but is no project (it has no
    array of objects), and loading it on the mounted editor wipes the canvas
    and records snapshots of the emptied scene. *)
Lemma malformed_project_replaces_scene :
  wellFormed (Document None) = false /\
  objects (canvas (loadProject (Document None) mount)) = [] /\
  objects (canvas (loadProject (Document None) mount)) <> objects (canvas mount) /\
  history (loadProject (Document None) mount) <> history mount.
Proof.
  repeat split; try (vm_compute; reflexivity); vm_compute; discriminate.
Qed.

(** C5, amended.  [loadProject] validates nothing.  Text that is not JSON
    stops the load before anything is touched: the whole state is unchanged.
    A document without an array of objects is taken for the empty project:
    every object is removed from the canvas; [history] receives one entry for
    each removal, the snapshot of what is then left, and none for the load
    itself (the function passed to [loadFromJSON] is not called); the redo
    stack is emptied as soon as one object is removed.  On a canvas that
    holds nothing, nothing is written. *)
Theorem loadProject_without_validation (st : Editor) :
  (forall text, loadProject (NotJSON text) st = st) /\
  objects (canvas (loadProject (Document None) st)) = [] /\
  history (loadProject (Document None) st)
  = (history st ++ removalSnapshots (objects (canvas st)))%list /\
  (objects (canvas st) <> [] -> redoStack (loadProject (Document None) st) = []) /\
  (objects (canvas st) = [] ->
   history (loadProject (Document None) st) = history st /\
   redoStack (loadProject (Document None) st) = redoStack st).
Proof.
  split; [reflexivity|].
  split; [rewrite loadProject_document_objects; reflexivity|].
  rewrite loadProject_unfold. cbv zeta. simpl calls.
  assert (Hh : history (add_all [] (clear st))
               = (history st ++ removalSnapshots (objects (canvas st)))%list).
  { rewrite replay_history. simpl. rewrite app_nil_r. reflexivity. }
  split; [exact Hh|].
  split.
  - intros Hne. apply replay_redoStack. left. exact Hne.
  - intros He. split.
    + rewrite Hh, He. simpl. apply app_nil_r.
    + apply replay_redoStack_empty, He.
Qed.

(** On the mounted editor: thirty removals, thirty entries. *)
Lemma loadProject_without_validation_witness :
  redoStack (loadProject (Document None) mount) = [] /\
  List.length (history (loadProject (Document None) mount)) = 31%nat.
Proof.
  destruct (loadProject_without_validation mount) as (_ & _ & Hh & Hr & _).
  split.
  - apply Hr. vm_compute. discriminate.
  - rewrite Hh. vm_compute. reflexivity.
Defined.

(** ** C7: toolbar actions invoked repeatedly *)

(** C7 as stated fails: pressing the rectangle button twice on the mounted
    editor leaves a state different from pressing it once, with two more
    objects on the canvas than before. *)
Lemma double_click_inserts_two_objects :
  step AddRectangle (step AddRectangle mount) <> step AddRectangle mount /\
  List.length (objects (canvas (step AddRectangle (step AddRectangle mount))))
  = (List.length (objects (canvas mount)) + 2)%nat.
Proof.
  split.
  - intros H.
    apply (f_equal (fun s => List.length (objects (canvas s)))) in H.
    vm_compute in H. discriminate.
  - vm_compute. reflexivity.
Qed.

(** C7, amended.  Export, save and the layer button are idempotent (export
    and save leave the editor as it is).  Every invocation of an insert
    action puts exactly one new object on top of the canvas, so two
    invocations in succession insert two objects. *)
Theorem toolbar_actions_repeated (st : Editor) :
  step ExportCanvas st = st /\
  step SaveProject st = st /\
  step OpenLayers (step OpenLayers st) = step OpenLayers st /\
  objects (canvas (step AddRectangle st))
  = (objects (canvas st) ++ [newObject (nextId st) rectAttrs])%list /\
  objects (canvas (step AddCircle st))
  = (objects (canvas st) ++ [newObject (nextId st) circleAttrs])%list /\
  objects (canvas (step AddText st))
  = (objects (canvas st) ++ [newObject (nextId st) textAttrs])%list /\
  objects (canvas (step AddRectangle (step AddRectangle st)))
  = (objects (canvas st)
     ++ [newObject (nextId st) rectAttrs; newObject (S (nextId st)) rectAttrs])%list.
Proof.
  repeat split.
  simpl. rewrite <- app_assoc. reflexivity.
Qed.

(** ** C8: image import *)

Lemma inject_pos_nonzero (w : positive) : ~ inject_Z (Zpos w) == 0.
Proof. unfold Qeq. simpl. lia. Qed.

(** The function written for the loaded image (lines 197-201), where it is
    called: one image goes on top, scaled by the same factor in both
    directions so that it is 300 wide and keeps its proportions. *)
Lemma onImageLoaded_adds_scaled_image (url : string) (w h : positive) (st : Editor) :
  exists img,
    objects (canvas (onImageLoaded url w h st))
    = (objects (canvas st) ++ [img])%list /\
    type (attrs img) = "image" /\
    scaleX (attrs img) = scaleY (attrs img) /\
    scaledWidth (attrs img) == 300 /\
    scaledHeight (attrs img) / scaledWidth (attrs img)
    == inject_Z (Zpos h) / inject_Z (Zpos w).
Proof.
  eexists. split; [reflexivity|]. split; [reflexivity|]. split; [reflexivity|].
  pose proof (inject_pos_nonzero w) as Hw.
  unfold scaledWidth, scaledHeight. simpl.
  split; field; exact Hw.
Qed.

(** C8 (the code departs from it).  [handleImageUpload] hands that function
    to [FabricImage.fromURL] in the place of the options, where it is never
    called: an import adds no object and records nothing, the whole state is
    as it was before.  On the mounted editor the canvas still holds the
    thirty grid lines only and [history] its one entry. *)
Theorem image_import_adds_no_object (url : string) (w h : positive) (st : Editor) :
  handleImageUpload url w h st = st /\
  step (UploadImage url w h) st = st /\
  List.length (objects (canvas (step (UploadImage url w h) mount))) = 30%nat /\
  saveProject (step (UploadImage url w h) mount) = [] /\
  history (step (UploadImage url w h) mount) = [[]].
Proof.
  split; [reflexivity|]. split; [reflexivity|].
  change (step (UploadImage url w h) mount) with mount.
  vm_compute. repeat split.
Qed.

(** ** C9: filters *)

Lemma find_object_oid id os o : find_object id os = Some o -> oid o = id.
Proof.
  unfold find_object. intros H. apply find_some in H.
  destruct H as [_ H]. apply Nat.eqb_eq. exact H.
Qed.

(** Unless an object is active and its type is ['image'], [applyFilter]
    returns and leaves the whole state as it is. *)
Lemma applyFilter_guard (filterType : string) (st : Editor) :
  (forall o, getActiveObject (canvas st) = Some o -> type (attrs o) <> "image") ->
  applyFilter filterType st = Returned st.
Proof.
  intros Hno. unfold applyFilter.
  destruct (getActiveObject (canvas st)) as [o|]; [|reflexivity].
  destruct (String.eqb_spec (type (attrs o)) "image") as [E|E]; [|reflexivity].
  exfalso. exact (Hno o eq_refl E).
Qed.

(** With an image active, the two filter buttons throw before they assign
    anything. *)
Lemma applyFilter_image_throws (st : Editor) (o : FabricObject) :
  getActiveObject (canvas st) = Some o -> type (attrs o) = "image" ->
  applyFilter "grayscale" st = Thrown "TypeError" st /\
  applyFilter "sepia" st = Thrown "TypeError" st.
Proof.
  intros Hact Hty. unfold applyFilter. rewrite Hact, Hty. split; reflexivity.
Qed.

(** C9 (the code departs from it).  A project holding one image is loaded
    and the image is clicked: it is the active object, of type ['image'],
    with no filter.  Each of the two filter buttons then throws a
    [TypeError]: the filter list of the image is not replaced by the filter
    asked for, it stays empty, and no snapshot is recorded; the whole state
    is as before the click on the button. *)
Theorem applyFilter_throws_on_active_image :
  let picture := scaleToWidth 300 (imageAttrs "data:image/png;base64,iVBORw0KGgo=" 600 400) in
  let st := run [LoadProject (Document (Some [picture])); ClickObject 30] mount in
  option_map (fun o => (oid o, type (attrs o), filters (attrs o)))
    (getActiveObject (canvas st)) = Some (30%nat, "image", []) /\
  applyFilter "grayscale" st = Thrown "TypeError" st /\
  applyFilter "sepia" st = Thrown "TypeError" st /\
  step (ApplyFilter "grayscale") st = st /\
  step (ApplyFilter "sepia") st = st /\
  option_map (fun o => filters (attrs o))
    (getActiveObject (canvas (step (ApplyFilter "grayscale") st))) = Some [] /\
  history (step (ApplyFilter "grayscale") st) = history st.
Proof.
  intros picture st.
  assert (Hact : getActiveObject (canvas st) = Some (newObject 30 picture))
    by (vm_compute; reflexivity).
  destruct (applyFilter_image_throws st _ Hact eq_refl) as [Hg Hs].
  assert (Hsg : step (ApplyFilter "grayscale") st = st)
    by (change (after (applyFilter "grayscale" st) = st); rewrite Hg; reflexivity).
  assert (Hss : step (ApplyFilter "sepia") st = st)
    by (change (after (applyFilter "sepia" st) = st); rewrite Hs; reflexivity).
  rewrite Hsg, Hss, Hact. clearbody st.
  repeat split; assumption.
Qed.

(** ** C10: the grid lines *)

(** Every line [drawGrid] builds is not selectable, not evented and kept
    out of the export. *)
Lemma drawGrid_flags w h first :
  Forall (fun o => selectable o = false /\ evented o = false /\
                   excludeFromExport o = true)
         (drawGrid w h first).
Proof.
  unfold drawGrid. apply Forall_app.
  split; apply Forall_map, Forall_forall; intros i _; repeat split.
Qed.

(** The flags that keep a grid line out of the export and out of reach of
    clicks are never written after construction, and fresh objects never
    take the identity of a grid line. *)

Lemma keeps_mount : keepsOutOfExport mount.
Proof.
  split; [apply Nat.le_refl|].
  apply (Forall_impl _ (P := fun o => selectable o = false /\ evented o = false /\
                                      excludeFromExport o = true)).
  - intros o (_ & He & Hx) _. split; assumption.
  - apply (drawGrid_flags 800 600 0).
Qed.

Lemma keeps_update id f st :
  (forall o, oid (f o) = oid o /\ excludeFromExport (f o) = excludeFromExport o /\
             evented (f o) = evented o) ->
  keepsOutOfExport st ->
  keepsOutOfExport (set_objects (update_object id f (objects (canvas st))) st).
Proof.
  intros Hf [Hn Hall]. split; [exact Hn|].
  simpl. unfold update_object. apply Forall_map.
  revert Hall. apply Forall_impl. intros o Ho.
  destruct (Nat.eqb (oid o) id); [|exact Ho].
  destruct (Hf o) as (H1 & H2 & H3).
  unfold gridLineKept in *. rewrite H1, H2, H3. exact Ho.
Qed.

Lemma keeps_create a st : keepsOutOfExport st -> keepsOutOfExport (create a st).
Proof.
  intros [Hn Hall]. split; [simpl; lia|].
  simpl. apply Forall_app. split; [exact Hall|].
  constructor; [|constructor]. unfold gridLineKept. simpl. intros Hlt. lia.
Qed.

Lemma keeps_add_all l st :
  keepsOutOfExport st -> keepsOutOfExport (add_all l st).
Proof.
  intros [Hn Hall]. split.
  - rewrite add_all_nextId. lia.
  - rewrite add_all_objects. apply Forall_app. split; [exact Hall|].
    apply (Forall_impl _ (P := fun o => (nextId st <= oid o)%nat));
      [|apply revive_oid].
    intros o Ho Hlt. lia.
Qed.

Lemma keeps_clear st : keepsOutOfExport st -> keepsOutOfExport (clear st).
Proof.
  intros [Hn _]. split.
  - rewrite clear_nextId. exact Hn.
  - rewrite clear_objects. constructor.
Qed.

Lemma keeps_load l st :
  keepsOutOfExport st -> keepsOutOfExport (add_all l (clear st)).
Proof. intros H. apply keeps_add_all, keeps_clear, H. Qed.

Lemma keeps_same_objects st st' :
  objects (canvas st') = objects (canvas st) -> nextId st' = nextId st ->
  keepsOutOfExport st -> keepsOutOfExport st'.
Proof. intros Ho Hn [H1 H2]. split; [rewrite Hn | rewrite Ho]; assumption. Qed.

Lemma keeps_setHistory h st :
  keepsOutOfExport st -> keepsOutOfExport (setHistory h st).
Proof. intros H. exact H. Qed.

Lemma keeps_setRedoStack r st :
  keepsOutOfExport st -> keepsOutOfExport (setRedoStack r st).
Proof. intros H. exact H. Qed.

Lemma keeps_setActiveObject o st :
  keepsOutOfExport st -> keepsOutOfExport (setActiveObject o st).
Proof.
  apply keeps_same_objects; reflexivity.
Qed.

Lemma keeps_pointerMove id p st :
  keepsOutOfExport st -> keepsOutOfExport (pointerMove id p st).
Proof.
  intros H. unfold pointerMove.
  apply (keeps_update id snapToGrid
           (set_objects
              (update_object id (with_attrs (set_position (fst p) (snd p)))
                 (objects (canvas st))) st)).
  - intros o. repeat split.
  - apply keeps_update; [intros o; repeat split | exact H].
Qed.

Lemma keeps_pointerMoves id ps : forall st,
  keepsOutOfExport st ->
  keepsOutOfExport (fold_left (fun s q => pointerMove id q s) ps st).
Proof.
  induction ps as [|q ps IH]; intros st H; [exact H|].
  simpl. apply IH, keeps_pointerMove, H.
Qed.

(** A handler that only rewrites attributes, or lock and selectable flags,
    of one object. *)
Ltac keeps_by_update st H :=
  apply (keeps_update _ _ st); [intros ?; repeat split | exact H].

Lemma keeps_step a st : keepsOutOfExport st -> keepsOutOfExport (step a st).
Proof.
  intros H. destruct a; simpl step; try exact H.
  - exact (keeps_create rectAttrs st H).
  - exact (keeps_create circleAttrs st H).
  - exact (keeps_create textAttrs st H).
  - destruct (Nat.le_gt_cases (List.length (history st)) 1) as [Hle|Hgt].
    + rewrite undo_guard by exact Hle. exact H.
    + rewrite undo_unfold by exact Hgt.
      apply keeps_load, keeps_setHistory, keeps_setRedoStack, H.
  - destruct (redoStack st) as [|r rs] eqn:Er.
    + rewrite redo_empty_stack by exact Er. exact H.
    + rewrite redo_unfold by (rewrite Er; discriminate).
      apply keeps_load, keeps_setHistory, keeps_setRedoStack, H.
  - destruct json as [text|objs]; [exact H|].
    rewrite loadProject_unfold. cbv zeta. apply keeps_load.
    revert H. apply keeps_same_objects;
      [rewrite calls_saveState_canvas; reflexivity | apply calls_saveState_nextId].
  - unfold applyFilter. destruct (getActiveObject (canvas st)) as [o|]; [|exact H].
    destruct (String.eqb (type (attrs o)) "image"); [|exact H].
    destruct (String.eqb filterType "grayscale"); [exact H|].
    destruct (String.eqb filterType "sepia"); exact H.
  - unfold updateObjectColor. destruct (selectedObject st) as [sel|]; [|exact H].
    keeps_by_update st H.
  - unfold updateTextProperty. destruct (selectedText st) as [sel|]; [|exact H].
    keeps_by_update st H.
  - keeps_by_update st H.
  - keeps_by_update st H.
  - unfold clickObject.
    destruct (find_object id (objects (canvas st))) as [o|]; [|exact H].
    destruct (clickable o); [apply keeps_setActiveObject, H | exact H].
  - revert H. apply keeps_same_objects;
      [apply discardActiveObject_objects | apply discardActiveObject_nextId].
  - unfold areaSelect.
    destruct (find_object id (objects (canvas st))) as [o|]; [|exact H].
    destruct (areaSelectable o); [apply keeps_setActiveObject, H | exact H].
  - unfold dragObject.
    destruct (find_object id (objects (canvas st))) as [o|]; [|exact H].
    destruct (draggable o); [|exact H].
    apply (keeps_pointerMoves id (p :: ps)), keeps_setActiveObject, H.
Qed.

Lemma keeps_run acts : forall st,
  keepsOutOfExport st -> keepsOutOfExport (run acts st).
Proof.
  induction acts as [|a acts IH]; intros st H; [exact H|].
  apply IH, keeps_step, H.
Qed.

(** In every state of a session the grid lines are kept out of the project
    file and a click never selects one. *)
Lemma grid_lines_stay_out_of_export_and_clicks (st : Editor) :
  reachable st ->
  saveProject st
  = map attrs (filter (fun o => negb (excludeFromExport o)
                                && Nat.leb gridLineCount (oid o))
                 (objects (canvas st))) /\
  (forall id, (id < gridLineCount)%nat -> clickObject id st = st).
Proof.
  intros [acts ->].
  destruct (keeps_run acts mount keeps_mount) as [_ Hall].
  set (st := run acts mount) in *. split.
  - unfold saveProject, toJSON, toObject. f_equal.
    apply filter_ext_in. intros o Ho.
    rewrite Forall_forall in Hall. specialize (Hall o Ho).
    destruct (Nat.leb_spec gridLineCount (oid o)) as [_|Hlt].
    + rewrite andb_true_r. reflexivity.
    + destruct (Hall Hlt) as [-> _]. reflexivity.
  - intros id Hid. unfold clickObject.
    destruct (find_object id (objects (canvas st))) as [o|] eqn:Hfind; [|reflexivity].
    pose proof (find_object_oid _ _ _ Hfind) as Hoid.
    apply find_some in Hfind. destruct Hfind as [Hin _].
    rewrite Forall_forall in Hall. specialize (Hall o Hin).
    unfold gridLineKept in Hall. rewrite Hoid in Hall. destruct (Hall Hid) as [_ Hev].
    unfold clickable. rewrite Hev, andb_false_r. reflexivity.
Qed.

(** C10 (the code departs from it on selection).  The grid line of identity
    3 is built unselectable, unevented and kept out of the export.  Its lock
    button in the layer panel, pressed twice, leaves it selectable:
    [toggleLock] writes [selectable = isLocked] whatever the flag was
    before.  An area selection over it then makes it the active object of
    the canvas. *)
Theorem relocked_grid_line_enters_selection :
  let st := run [OpenLayers; ToggleLock 3; ToggleLock 3] mount in
  option_map (fun o => (type (attrs o), selectable o, evented o, excludeFromExport o))
    (find_object 3 (objects (canvas mount))) = Some ("line", false, false, true) /\
  option_map selectable (find_object 3 (objects (canvas st))) = Some true /\
  activeObject (canvas (step (AreaSelect 3) st)) = Some 3%nat /\
  saveProject (step (AreaSelect 3) st) = [].
Proof.
  vm_compute. repeat split.
Qed.

(** * Further properties of the component *)

(** ** What [undo], [redo] and [loadProject] do to canvas and history *)

(** When [history] holds more than one entry, [undo] rebuilds the canvas
    from the entry before the last: afterwards the canvas exports as that
    entry.  The last entry is removed from [history], but the replay writes
    new ones after it: one for each object taken off the canvas, grid lines
    included (the snapshot of what is left), and one for each object of the
    restored entry (each that entry itself); the canvas then exports as the
    last entry of [history].  The rebuilt objects are new ones with every
    interaction flag at its default (so locks are lost and no grid line is
    left), and nothing is active. *)
Theorem undo_restores_previous_snapshot (st : Editor) :
  (1 < List.length (history st))%nat ->
  history (undo st)
  = (removelast (history st) ++ removalSnapshots (objects (canvas st))
     ++ repeat (last (removelast (history st)) [])
          (List.length (last (removelast (history st)) [])))%list /\
  toJSON (canvas (undo st)) = last (removelast (history st)) [] /\
  toJSON (canvas (undo st)) = last (history (undo st)) [] /\
  objects (canvas (undo st))
  = revive (nextId st) (last (removelast (history st)) []) /\
  Forall defaultFlags (objects (canvas (undo st))) /\
  activeObject (canvas (undo st)) = None.
Proof. exact (undo_replay st). Qed.

(** Rectangle, circle, undo: the canvas still exports both, and [history]
    goes from 5 entries to 4 + 32 + 2. *)
Lemma undo_restores_previous_snapshot_witness :
  List.length (history (run [AddRectangle; AddCircle] mount)) = 5%nat /\
  toJSON (canvas (undo (run [AddRectangle; AddCircle] mount))) = [rectAttrs; circleAttrs] /\
  List.length (history (undo (run [AddRectangle; AddCircle] mount))) = 38%nat.
Proof.
  assert (Hlen : (1 < List.length (history (run [AddRectangle; AddCircle] mount)))%nat)
    by (vm_compute; lia).
  destruct (undo_restores_previous_snapshot _ Hlen) as (Hh & Hj & _).
  split; [vm_compute; reflexivity|].
  split.
  - rewrite Hj. vm_compute. reflexivity.
  - rewrite Hh. vm_compute. reflexivity.
Defined.



Lemma loadProject_history l st :
  history (loadProject (Document (Some l)) st)
  = (history st ++ repeat (toJSON (canvas st)) (List.length l)
     ++ removalSnapshots (objects (canvas st))
     ++ repeat l (List.length l))%list.
Proof.
  rewrite loadProject_unfold. cbv zeta.
  rewrite replay_history, calls_saveState_history, calls_saveState_canvas.
  rewrite <- app_assoc. reflexivity.
Qed.

(** Loading a document whose array of objects is [l] replaces the canvas by
    the objects revived from [l], whatever it held: the canvas then exports
    as [l] and nothing is active.  [history] keeps its entries and receives,
    in this order: one snapshot of the old scene for each object of [l] (the
    function passed to [loadFromJSON] runs before the canvas is cleared), one
    entry for each object taken off the canvas, and one entry equal to [l]
    for each object of [l].  The redo stack is emptied unless [l] and the
    canvas are both empty, in which case nothing is written. *)
Theorem loadProject_replaces_scene (l : list Attrs) (st : Editor) :
  objects (canvas (loadProject (Document (Some l)) st)) = revive (nextId st) l /\
  saveProject (loadProject (Document (Some l)) st) = l /\
  history (loadProject (Document (Some l)) st)
  = (history st ++ repeat (toJSON (canvas st)) (List.length l)
     ++ removalSnapshots (objects (canvas st))
     ++ repeat l (List.length l))%list /\
  (l <> [] \/ objects (canvas st) <> [] ->
   redoStack (loadProject (Document (Some l)) st) = []) /\
  (l = [] -> objects (canvas st) = [] ->
   history (loadProject (Document (Some l)) st) = history st /\
   redoStack (loadProject (Document (Some l)) st) = redoStack st) /\
  activeObject (canvas (loadProject (Document (Some l)) st)) = None.
Proof.
  split; [apply (loadProject_document_objects (Some l))|].
  split.
  { unfold saveProject, toJSON. rewrite (loadProject_document_objects (Some l)).
    apply revive_exported. }
  split; [apply loadProject_history|].
  split; [|split].
  - intros H. rewrite loadProject_unfold. cbv zeta.
    apply replay_redoStack. rewrite calls_saveState_canvas. tauto.
  - intros -> Ho. split.
    + rewrite loadProject_history, Ho. simpl. apply app_nil_r.
    + rewrite loadProject_unfold. cbv zeta. simpl calls.
      apply replay_redoStack_empty, Ho.
  - rewrite loadProject_unfold. cbv zeta. apply replay_activeObject.
Qed.

(** A project of two objects loaded into the mounted editor: two snapshots
    of the old scene, thirty removals, two snapshots of the new scene. *)
Lemma loadProject_replaces_scene_witness :
  redoStack (loadProject (Document (Some [rectAttrs; circleAttrs])) mount) = [] /\
  List.length (history (loadProject (Document (Some [rectAttrs; circleAttrs])) mount))
  = 35%nat.
Proof.
  destruct (loadProject_replaces_scene [rectAttrs; circleAttrs] mount)
    as (_ & _ & Hh & Hr & _).
  split.
  - apply Hr. left. discriminate.
  - rewrite Hh. vm_compute. reflexivity.
Defined.

(** ** Undo after an insert *)

Lemma insert_is_create a :
  isInsert a = true ->
  exists attrs0, forall st, step a st = saveState (create attrs0 st).
Proof.
  destruct a; simpl; try discriminate; intros _; eexists; intros st; reflexivity.
Qed.

Lemma toJSON_create attrs0 st :
  toJSON (canvas (saveState (create attrs0 st)))
  = (toJSON (canvas st) ++ [attrs0])%list.
Proof.
  unfold toJSON. simpl. rewrite filter_app, map_app. reflexivity.
Qed.

Lemma insert_history a st :
  isInsert a = true ->
  history (step a st)
  = (history st ++ [toJSON (canvas (step a st)); toJSON (canvas (step a st))])%list.
Proof.
  intros H. destruct (insert_is_create a H) as [attrs0 Hstep].
  rewrite Hstep. simpl. rewrite <- app_assoc. reflexivity.
Qed.

Lemma last_app_nonempty {A} (l r : list A) (d : A) :
  r <> [] -> last (l ++ r) d = last r d.
Proof.
  intros Hr. destruct (exists_last Hr) as (r' & x & ->).
  rewrite app_assoc, !last_last. reflexivity.
Qed.

Lemma removelast_app_nonempty {A} (l r : list A) :
  r <> [] -> removelast (l ++ r) = (l ++ removelast r)%list.
Proof. intros Hr. apply removelast_app. exact Hr. Qed.

Lemma repeat_two_more {A} (x : A) (k : nat) :
  repeat x (S (S k)) = (repeat x k ++ [x; x])%list.
Proof.
  replace (S (S k)) with (k + 2)%nat by lia. apply repeat_app.
Qed.

Lemma undo_after_insert (a : Action) (st : Editor) :
  isInsert a = true ->
  toJSON (canvas (undo (step a st))) = toJSON (canvas (step a st)) /\
  history (undo (step a st))
  = (history st ++ [toJSON (canvas (step a st))]
     ++ removalSnapshots (objects (canvas (step a st)))
     ++ repeat (toJSON (canvas (step a st)))
          (List.length (toJSON (canvas (step a st)))))%list /\
  last (history (undo (step a st))) [] = toJSON (canvas (step a st)) /\
  redoStack (undo (step a st)) = [].
Proof.
  intros H. pose proof (insert_history a st H) as Hh.
  set (s := toJSON (canvas (step a st))) in *.
  assert (Hlen : (1 < List.length (history (step a st)))%nat).
  { rewrite Hh, length_app. simpl. lia. }
  destruct (undo_replay _ Hlen) as (H1 & H2 & H3 & _).
  assert (Hrl : removelast (history (step a st)) = (history st ++ [s])%list).
  { rewrite Hh. change [s; s] with ([s] ++ [s])%list.
    rewrite app_assoc. apply removelast_last. }
  assert (Hprev : last (removelast (history (step a st))) [] = s).
  { rewrite Hrl. apply last_last. }
  rewrite Hprev in H1, H2. rewrite Hrl in H1.
  split; [exact H2|].
  split; [rewrite H1, <- app_assoc; reflexivity|].
  split; [rewrite <- H3; exact H2|].
  rewrite undo_unfold by exact Hlen. apply replay_redoStack. left.
  destruct (insert_is_create a H) as [attrs0 Hstep].
  rewrite Hstep. simpl. destruct (objects (canvas st)); discriminate.
Qed.

(** An insert (rectangle, circle, text) records its result twice.  The
    first [undo] after it restores the second of the two entries: the canvas
    exports exactly as before that undo.  [history] keeps the first entry
    and receives the entries of the replay, ending with that same snapshot;
    the redo stack is left empty. *)
Theorem first_undo_after_insert_keeps_scene (a : Action) (st : Editor) :
  isInsert a = true ->
  toJSON (canvas (undo (step a st))) = toJSON (canvas (step a st)) /\
  history (undo (step a st))
  = (history st ++ [toJSON (canvas (step a st))]
     ++ removalSnapshots (objects (canvas (step a st)))
     ++ repeat (toJSON (canvas (step a st)))
          (List.length (toJSON (canvas (step a st)))))%list /\
  last (history (undo (step a st))) [] = toJSON (canvas (step a st)) /\
  redoStack (undo (step a st)) = [].
Proof. exact (undo_after_insert a st). Qed.

(** Text, undo on the mounted editor: the text stays, and [history] holds
    1 + 1 + 31 + 1 entries. *)
Lemma first_undo_after_insert_keeps_scene_witness :
  toJSON (canvas (undo (step AddText mount))) = [textAttrs] /\
  List.length (history (undo (step AddText mount))) = 34%nat.
Proof.
  destruct (first_undo_after_insert_keeps_scene AddText mount eq_refl)
    as (H1 & H2 & _).
  split.
  - rewrite H1. vm_compute. reflexivity.
  - rewrite H2. vm_compute. reflexivity.
Defined.

(** Once [history] ends with two copies of a snapshot of two objects or
    more, which the canvas exports, [undo] keeps it so, and leaves the redo
    stack empty. *)
Lemma undo_stuck (st : Editor) (h : list Snapshot) (s : Snapshot) :
  history st = (h ++ [s; s])%list ->
  (2 <= List.length s)%nat ->
  exists h', history (undo st) = (h' ++ [s; s])%list /\
             toJSON (canvas (undo st)) = s /\
             redoStack (undo st) = [].
Proof.
  intros Hh Hs.
  assert (Hlen : (1 < List.length (history st))%nat).
  { rewrite Hh, length_app. simpl. lia. }
  destruct (undo_replay _ Hlen) as (H1 & H2 & _).
  assert (Hrl : removelast (history st) = (h ++ [s])%list).
  { rewrite Hh. change [s; s] with ([s] ++ [s])%list.
    rewrite app_assoc. apply removelast_last. }
  assert (Hprev : last (removelast (history st)) [] = s).
  { rewrite Hrl. apply last_last. }
  assert (Hredo : redoStack (undo st) = []).
  { rewrite undo_unfold by exact Hlen. apply redoStack_add_all.
    rewrite Hprev. intros ->. simpl in Hs. lia. }
  rewrite Hprev in H1, H2.
  destruct (List.length s) as [|[|k]] eqn:Ek; [lia | lia |].
  rewrite repeat_two_more in H1.
  exists (removelast (history st) ++ removalSnapshots (objects (canvas st))
          ++ repeat s k)%list.
  split; [|split; [exact H2 | exact Hredo]].
  rewrite H1, <- !app_assoc. reflexivity.
Qed.

Lemma undo_stuck_times (s : Snapshot) (n : nat) : forall (st : Editor) (h : list Snapshot),
  history st = (h ++ [s; s])%list ->
  toJSON (canvas st) = s ->
  (2 <= List.length s)%nat ->
  toJSON (canvas (times n undo st)) = s /\
  (n <> 0%nat -> redoStack (times n undo st) = []).
Proof.
  induction n as [|n IH]; intros st h Hh Hc Hs; [split; [exact Hc | congruence]|].
  simpl times. destruct (undo_stuck st h s Hh Hs) as (h' & Hh' & Hc' & Hr').
  destruct (IH (undo st) h' Hh' Hc' Hs) as [H1 H2].
  split; [exact H1|]. intros _.
  destruct n as [|n]; [exact Hr' | apply H2; discriminate].
Qed.

Lemma redo_times_empty (n : nat) : forall st,
  redoStack st = [] -> times n redo st = st.
Proof.
  induction n as [|n IH]; intros st H; [reflexivity|].
  simpl times. rewrite redo_empty_stack by exact H. apply IH, H.
Qed.

Lemma run_snoc acts a st : run (acts ++ [a]) st = step a (run acts st).
Proof. unfold run. rewrite fold_left_app. reflexivity. Qed.

Lemma inserts_toJSON_length acts st :
  Forall (fun a => isInsert a = true) acts ->
  List.length (toJSON (canvas (run acts st)))
  = (List.length (toJSON (canvas st)) + List.length acts)%nat.
Proof.
  induction acts as [|a acts IH] using rev_ind; intros H.
  - simpl. lia.
  - apply Forall_app in H. destruct H as [Hacts Ha].
    inversion Ha as [|? ? Hins _]; subst.
    destruct (insert_is_create a Hins) as [attrs0 Hstep].
    rewrite run_snoc, Hstep, toJSON_create, !length_app, IH by exact Hacts.
    simpl. lia.
Qed.

(** On sequences of inserts alone the canvas exports after as many undos
    and redos what it exported before them, for want of any effect: the
    undos restore the scene they start from (with two inserts or more, any
    number of them does) and leave nothing to redo. *)
Lemma inserts_undone_and_redone (acts : list Action) :
  acts <> [] ->
  Forall (fun a => isInsert a = true) acts ->
  toJSON (canvas (times (List.length acts) undo (run acts mount)))
  = toJSON (canvas (run acts mount)) /\
  times (List.length acts) redo (times (List.length acts) undo (run acts mount))
  = times (List.length acts) undo (run acts mount) /\
  ((2 <= List.length acts)%nat ->
   forall n, toJSON (canvas (times n undo (run acts mount)))
             = toJSON (canvas (run acts mount))).
Proof.
  intros Hne Hall.
  pose proof (inserts_toJSON_length acts mount Hall) as Hlen.
  change (List.length (toJSON (canvas mount))) with 0%nat in Hlen. simpl in Hlen.
  destruct (exists_last Hne) as (acts' & a & E).
  assert (Ha : isInsert a = true).
  { rewrite E in Hall. apply Forall_app in Hall. destruct Hall as [_ Hl].
    inversion Hl; assumption. }
  assert (Hh : history (run acts mount)
               = (history (run acts' mount)
                  ++ [toJSON (canvas (run acts mount));
                      toJSON (canvas (run acts mount))])%list).
  { rewrite E, run_snoc. apply insert_history, Ha. }
  destruct (Nat.le_gt_cases 2 (List.length acts)) as [H2|H1].
  - assert (Hs : (2 <= List.length (toJSON (canvas (run acts mount))))%nat)
      by (rewrite Hlen; exact H2).
    destruct (undo_stuck_times _ (List.length acts) _ _ Hh eq_refl Hs) as [Hc Hr].
    split; [exact Hc|]. split.
    + apply redo_times_empty, Hr. lia.
    + intros _ n. apply (undo_stuck_times _ n _ _ Hh eq_refl Hs).
  - assert (Hone : List.length acts = 1%nat).
    { destruct acts; [congruence | simpl in *; lia]. }
    rewrite Hone. simpl times.
    assert (E' : run acts mount = step a (run acts' mount))
      by (rewrite E at 1; apply run_snoc).
    rewrite E'.
    destruct (undo_after_insert a (run acts' mount) Ha) as (Hc & _ & _ & Hr).
    split; [exact Hc|]. split; [apply redo_empty_stack, Hr | lia].
Qed.

(** What further undos do after an insert depends on the scene.  When the
    inserted object is the only one the canvas exports, the second [undo]
    empties the canvas.  When the canvas exported an object already, no
    number of undos changes what it exports: the inserted object stays, and
    so does everything else. *)
Theorem further_undos_after_insert (a : Action) (st : Editor) (n : nat) :
  isInsert a = true ->
  (toJSON (canvas st) = [] ->
   toJSON (canvas (undo (undo (step a st)))) = []) /\
  (toJSON (canvas st) <> [] ->
   toJSON (canvas (times n undo (step a st))) = toJSON (canvas (step a st))).
Proof.
  intros H.
  destruct (insert_is_create a H) as [attrs0 Hstep].
  pose proof (toJSON_create attrs0 st) as Hs. rewrite <- Hstep in Hs.
  split.
  - intros Hempty. rewrite Hempty in Hs. simpl in Hs.
    destruct (undo_after_insert a st H) as (_ & Hh & _).
    rewrite Hs in Hh. simpl in Hh.
    assert (Hobj : objects (canvas (step a st)) <> []).
    { rewrite Hstep. simpl. destruct (objects (canvas st)); discriminate. }
    assert (Hrem : removalSnapshots (objects (canvas (step a st))) <> []).
    { intros E. apply (f_equal (@List.length _)) in E.
      rewrite removalSnapshots_length in E.
      destruct (objects (canvas (step a st))); [congruence | discriminate]. }
    assert (Hh' : history (undo (step a st))
                  = (((history st ++ [[attrs0]])
                      ++ removalSnapshots (objects (canvas (step a st))))
                     ++ [[attrs0]])%list).
    { rewrite Hh, <- !app_assoc. reflexivity. }
    assert (Hlen : (1 < List.length (history (undo (step a st))))%nat).
    { rewrite Hh', !length_app. simpl. lia. }
    destruct (undo_replay _ Hlen) as (_ & H2 & _).
    rewrite H2, Hh', removelast_last.
    rewrite last_app_nonempty by exact Hrem.
    apply removalSnapshots_last. exact Hobj.
  - intros Hne.
    apply (undo_stuck_times _ n (step a st) (history st)).
    + apply insert_history. exact H.
    + reflexivity.
    + rewrite Hs, length_app. simpl.
      destruct (toJSON (canvas st)); [congruence | simpl; lia].
Qed.

(** Rectangle, undo, undo: the canvas is empty.  Rectangle, circle, undo,
    undo: the canvas still exports both, and [history] holds 41 entries. *)
Lemma further_undos_after_insert_witness :
  toJSON (canvas (undo (undo (step AddRectangle mount)))) = [] /\
  toJSON (canvas (times 2 undo (step AddCircle (step AddRectangle mount))))
  = [rectAttrs; circleAttrs] /\
  List.length (history (times 2 undo (step AddCircle (step AddRectangle mount))))
  = 41%nat.
Proof.
  split; [|split].
  - apply (further_undos_after_insert AddRectangle mount 0 eq_refl).
    vm_compute. reflexivity.
  - rewrite (proj2 (further_undos_after_insert AddCircle (step AddRectangle mount) 2
                      eq_refl)).
    + vm_compute. reflexivity.
    + vm_compute. discriminate.
  - vm_compute. reflexivity.
Defined.

(** ** The history over a whole session *)

Lemma setActiveObject_history o st : history (setActiveObject o st) = history st.
Proof. reflexivity. Qed.

Lemma dragObject_history id p ps st :
  exists extra, history (dragObject id p ps st) = (history st ++ extra)%list.
Proof.
  unfold dragObject.
  destruct (find_object id (objects (canvas st))) as [o|];
    [|exists []; symmetry; apply app_nil_r].
  destruct (draggable o); [|exists []; symmetry; apply app_nil_r].
  destruct (pointerMoves_result id ps p (setActiveObject o st)) as (_ & Hh & _).
  simpl fold_left. eexists.
  change (history (on_object_event ?s)) with (history s ++ [toJSON (canvas s)])%list.
  rewrite Hh, setActiveObject_history. reflexivity.
Qed.

Lemma step_extends_history (a : Action) (st : Editor) :
  a <> Undo ->
  exists extra, history (step a st) = (history st ++ extra)%list.
Proof.
  intros Ha.
  assert (Hsame : forall st', history st' = history st ->
                  exists extra, history st' = (history st ++ extra)%list).
  { intros st' H. exists []. rewrite H. symmetry. apply app_nil_r. }
  destruct a; simpl; try congruence; try (apply Hsame; reflexivity).
  - eexists. simpl. rewrite <- app_assoc. reflexivity.
  - eexists. simpl. rewrite <- app_assoc. reflexivity.
  - eexists. simpl. rewrite <- app_assoc. reflexivity.
  - destruct (redoStack st) as [|r rs] eqn:Er.
    + rewrite redo_empty_stack by exact Er. apply Hsame. reflexivity.
    + rewrite redo_unfold by (rewrite Er; discriminate).
      rewrite replay_history. simpl history. rewrite <- app_assoc.
      eexists. reflexivity.
  - destruct json as [text0|objs]; [apply Hsame; reflexivity|].
    rewrite loadProject_unfold. cbv zeta.
    rewrite replay_history, calls_saveState_history, <- app_assoc.
    eexists. reflexivity.
  - unfold applyFilter.
    destruct (getActiveObject (canvas st)) as [o|]; [|apply Hsame; reflexivity].
    destruct (String.eqb (type (attrs o)) "image"); [|apply Hsame; reflexivity].
    destruct (String.eqb filterType "grayscale"); [apply Hsame; reflexivity|].
    destruct (String.eqb filterType "sepia"); [apply Hsame; reflexivity|].
    eexists. reflexivity.
  - unfold updateObjectColor.
    destruct (selectedObject st); [|apply Hsame; reflexivity].
    eexists. reflexivity.
  - unfold updateTextProperty.
    destruct (selectedText st); [|apply Hsame; reflexivity].
    eexists. reflexivity.
  - unfold clickObject.
    destruct (find_object id (objects (canvas st))) as [o|]; [|apply Hsame; reflexivity].
    destruct (clickable o); apply Hsame; reflexivity.
  - apply Hsame. apply discardActiveObject_history.
  - unfold areaSelect.
    destruct (find_object id (objects (canvas st))) as [o|]; [|apply Hsame; reflexivity].
    destruct (areaSelectable o); apply Hsame; reflexivity.
  - apply dragObject_history.
Qed.

(** Every action but [undo] only appends to [history]: the entries recorded
    so far stay, in their order. *)
Theorem only_undo_shortens_history (a : Action) (st : Editor) :
  a <> Undo ->
  exists extra, history (step a st) = (history st ++ extra)%list.
Proof. exact (step_extends_history a st). Qed.

Lemma only_undo_shortens_history_witness :
  exists extra,
    history (step (ApplyFilter "sepia")
               (run [UploadImage "data:image/png;base64,AAAA" 600 400;
                     ClickObject 30] mount))
    = (history (run [UploadImage "data:image/png;base64,AAAA" 600 400;
                     ClickObject 30] mount) ++ extra)%list.
Proof.
  apply (only_undo_shortens_history (ApplyFilter "sepia")).
  discriminate.
Defined.

Lemma startsAtMount_step a st : startsAtMount st -> startsAtMount (step a st).
Proof.
  intros [rest Hrest].
  destruct a;
    try (match goal with
         | |- startsAtMount (step ?a st) =>
             let H := fresh in
             assert (H : a <> Undo) by discriminate;
             destruct (step_extends_history a st H) as [extra He];
             exists (rest ++ extra)%list; rewrite He, Hrest; reflexivity
         end).
  simpl step. unfold startsAtMount.
  destruct (Nat.le_gt_cases (List.length (history st)) 1) as [Hle|Hgt].
  - rewrite undo_guard by exact Hle. exists rest. exact Hrest.
  - destruct (undo_replay st Hgt) as (Hh & _).
    rewrite Hh, Hrest. rewrite Hrest in Hgt.
    destruct rest as [|r rest']; [simpl in Hgt; lia|].
    eexists. change (removelast ([] :: r :: rest')) with ([] :: removelast (r :: rest')).
    reflexivity.
Qed.

Lemma startsAtMount_run acts : forall st,
  startsAtMount st -> startsAtMount (run acts st).
Proof.
  induction acts as [|a acts IH]; intros st H; [exact H|].
  apply IH, startsAtMount_step, H.
Qed.

(** In every state of a session [history] begins with the snapshot taken at
    mount, which holds no object: the history is never empty, and undoing
    all the way leads to that empty snapshot, not to an error. *)
Theorem history_starts_at_mount (st : Editor) :
  reachable st -> startsAtMount st /\ history st <> [].
Proof.
  intros [acts ->].
  assert (H : startsAtMount (run acts mount)).
  { apply startsAtMount_run. exists []. reflexivity. }
  split; [exact H|]. destruct H as [rest ->]. discriminate.
Qed.

Lemma history_starts_at_mount_witness :
  startsAtMount (run [AddRectangle; Undo; Undo; Undo; Undo] mount).
Proof.
  apply history_starts_at_mount.
  exists [AddRectangle; Undo; Undo; Undo; Undo]. reflexivity.
Defined.

(** ** The selection hooks *)

Lemma find_object_In id os o : find_object id os = Some o -> In o os.
Proof. unfold find_object. intros H. apply find_some in H. tauto. Qed.

Lemma hooksEmpty_same st st' :
  selectedObject st' = selectedObject st -> selectedText st' = selectedText st ->
  hooksEmpty st -> hooksEmpty st'.
Proof. intros H1 H2 [Ho Ht]. split; congruence. Qed.

Lemma hooksEmpty_discardActiveObject st :
  hooksEmpty st -> hooksEmpty (discardActiveObject st).
Proof.
  intros H. unfold discardActiveObject.
  destruct (activeObject (canvas st)); [split; reflexivity | exact H].
Qed.

Lemma hooksEmpty_replay l st : hooksEmpty st -> hooksEmpty (add_all l (clear st)).
Proof.
  intros H.
  destruct (add_all_selected l (clear st)) as [H1 H2].
  apply (hooksEmpty_same (clear st)); [exact H1 | exact H2 |].
  unfold clear.
  destruct (remove_first_selected
              (List.length (objects (canvas (discardActiveObject st))))
              (discardActiveObject st)) as [H3 H4].
  apply (hooksEmpty_same (discardActiveObject st)); [exact H3 | exact H4 |].
  apply hooksEmpty_discardActiveObject, H.
Qed.

Lemma hooksEmpty_pointerMoves id ps : forall st,
  hooksEmpty st -> hooksEmpty (fold_left (fun s q => pointerMove id q s) ps st).
Proof.
  induction ps as [|q ps IH]; intros st H; [exact H|].
  simpl. apply IH. exact H.
Qed.

Lemma hooksEmpty_step a st : hooksEmpty st -> hooksEmpty (step a st).
Proof.
  intros H. destruct a; simpl step; try exact H.
  - destruct (Nat.le_gt_cases (List.length (history st)) 1) as [Hle|Hgt].
    + rewrite undo_guard by exact Hle. exact H.
    + rewrite undo_unfold by exact Hgt. apply hooksEmpty_replay. exact H.
  - destruct (redoStack st) as [|r rs] eqn:Er.
    + rewrite redo_empty_stack by exact Er. exact H.
    + rewrite redo_unfold by (rewrite Er; discriminate).
      apply hooksEmpty_replay. exact H.
  - destruct json as [text0|objs]; [exact H|].
    rewrite loadProject_unfold. cbv zeta. apply hooksEmpty_replay.
    destruct (calls_saveState_selected
                (List.length (match objs with Some l => l | None => [] end)) st)
      as [H1 H2].
    apply (hooksEmpty_same st); assumption.
  - unfold applyFilter.
    destruct (getActiveObject (canvas st)) as [o|]; [|exact H].
    destruct (String.eqb (type (attrs o)) "image"); [|exact H].
    destruct (String.eqb filterType "grayscale"); [exact H|].
    destruct (String.eqb filterType "sepia"); exact H.
  - unfold updateObjectColor. destruct (selectedObject st); exact H.
  - unfold updateTextProperty. destruct (selectedText st); exact H.
  - unfold clickObject.
    destruct (find_object id (objects (canvas st))) as [o|]; [|exact H].
    destruct (clickable o); [split; reflexivity | exact H].
  - apply hooksEmpty_discardActiveObject, H.
  - unfold areaSelect.
    destruct (find_object id (objects (canvas st))) as [o|]; [|exact H].
    destruct (areaSelectable o); [split; reflexivity | exact H].
  - unfold dragObject.
    destruct (find_object id (objects (canvas st))) as [o|]; [|exact H].
    destruct (draggable o); [|exact H].
    apply (hooksEmpty_same
             (fold_left (fun s q => pointerMove id q s) (p :: ps)
                (setActiveObject o st))); [reflexivity | reflexivity |].
    apply hooksEmpty_pointerMoves. split; reflexivity.
Qed.

Lemma hooksEmpty_run acts : forall st, hooksEmpty st -> hooksEmpty (run acts st).
Proof.
  induction acts as [|a acts IH]; intros st H; [exact H|].
  apply IH, hooksEmpty_step, H.
Qed.

(** The selection events of the canvas carry no [target], so the listeners
    of lines 229-243 never put an object into the hooks: in every state of a
    session [selectedObject] and [selectedText] are empty, whatever the
    active object of the canvas is, and the handlers behind the colour
    pickers and the text controls change nothing. *)
Theorem selection_hooks_stay_empty (st : Editor) :
  reachable st ->
  selectedObject st = None /\ selectedText st = None /\
  (forall property value, updateObjectColor property value st = st) /\
  (forall property value, updateTextProperty property value st = st).
Proof.
  intros [acts ->].
  destruct (hooksEmpty_run acts mount (conj eq_refl eq_refl)) as [Ho Ht].
  split; [exact Ho|]. split; [exact Ht|]. split; intros property value.
  - unfold updateObjectColor. rewrite Ho. reflexivity.
  - unfold updateTextProperty. rewrite Ht. reflexivity.
Qed.

(** A text is inserted and clicked: it is the active object of the canvas,
    and the hooks are empty. *)
Lemma selection_hooks_stay_empty_witness :
  let st := run [AddText; ClickObject 30] mount in
  activeObject (canvas st) = Some 30%nat /\
  selectedObject st = None /\ selectedText st = None /\
  updateTextProperty "fontSize" (VNumber 36) st = st.
Proof.
  intros st.
  assert (Hreach : reachable st) by (eexists; reflexivity).
  destruct (selection_hooks_stay_empty st Hreach) as (Ho & Ht & _ & Hp).
  split; [vm_compute; reflexivity|].
  split; [exact Ho|]. split; [exact Ht | apply Hp].
Defined.

(** ** The layer panel (lines 360-376) *)

Lemma update_object_id_on id f os :
  (forall o, In o os -> oid o = id -> f o = o) -> update_object id f os = os.
Proof.
  intros H. unfold update_object.
  induction os as [|o os IH]; simpl; [reflexivity|].
  rewrite IH by (intros x Hx; apply H; right; exact Hx).
  destruct (Nat.eqb_spec (oid o) id) as [E|_]; [|reflexivity].
  rewrite (H o (or_introl eq_refl) E). reflexivity.
Qed.

Lemma toggle_visible_twice o :
  with_attrs (fun a => set_visible (negb (visible a)) a)
    (with_attrs (fun a => set_visible (negb (visible a)) a) o) = o.
Proof.
  destruct o as [i a s e x l1 l2 l3 l4 l5]. destruct a. unfold with_attrs, set_visible.
  simpl. rewrite negb_involutive. reflexivity.
Qed.

(** The eye button is an involution: pressed twice on a layer it restores
    the whole state.  It writes no history, and a hidden object is still
    part of the project file. *)
Theorem toggleVisibility_twice_restores (id : nat) (st : Editor) :
  toggleVisibility id (toggleVisibility id st) = st /\
  history (toggleVisibility id st) = history st /\
  redoStack (toggleVisibility id st) = redoStack st /\
  List.length (saveProject (toggleVisibility id st)) = List.length (saveProject st).
Proof.
  split; [|split; [reflexivity|split; [reflexivity|]]].
  - destruct st as [[os act] h r so stx m n].
    unfold toggleVisibility, set_objects, set_canvas. simpl.
    rewrite update_object_twice by (intros; apply oid_with_attrs).
    rewrite update_object_id_on by (intros; apply toggle_visible_twice).
    reflexivity.
  - unfold saveProject, toJSON, toggleVisibility, update_object. simpl.
    rewrite !length_map. induction (objects (canvas st)) as [|o os IH]; [reflexivity|].
    simpl.
    assert (E : excludeFromExport
                  (if Nat.eqb (oid o) id
                   then with_attrs (fun a => set_visible (negb (visible a)) a) o
                   else o) = excludeFromExport o)
      by (destruct (Nat.eqb (oid o) id); reflexivity).
    rewrite E. destruct (excludeFromExport o); simpl; rewrite IH; reflexivity.
Qed.

(** Hiding an object takes it out of the pointer's reach: while it is
    hidden, a drag aimed at it leaves it as it is, and neither a click on it
    nor an area selection over it makes it the active object. *)
Theorem hidden_object_ignores_pointer
    (id : nat) (o : FabricObject) (st : Editor)
    (p : number * number) (ps : list (number * number)) :
  find_object id (objects (canvas st)) = Some o ->
  visible (attrs o) = true ->
  find_object id (objects (canvas (dragObject id p ps (toggleVisibility id st))))
  = find_object id (objects (canvas (toggleVisibility id st))) /\
  (activeObject (canvas (clickObject id (toggleVisibility id st))) = Some id ->
   activeObject (canvas st) = Some id) /\
  (activeObject (canvas (areaSelect id (toggleVisibility id st))) = Some id ->
   activeObject (canvas st) = Some id).
Proof.
  intros Hfind Hvis.
  assert (Hf : find_object id (objects (canvas (toggleVisibility id st)))
               = Some (with_attrs (fun a => set_visible (negb (visible a)) a) o)).
  { unfold toggleVisibility. simpl.
    rewrite find_update_object by (intros; apply oid_with_attrs).
    rewrite Hfind. reflexivity. }
  assert (Hd : dragObject id p ps (toggleVisibility id st) = toggleVisibility id st).
  { unfold dragObject. rewrite Hf.
    unfold draggable, clickable. simpl. rewrite Hvis. reflexivity. }
  assert (Hc : clickObject id (toggleVisibility id st) = toggleVisibility id st).
  { unfold clickObject. rewrite Hf.
    unfold clickable. simpl. rewrite Hvis. reflexivity. }
  assert (Ha : areaSelect id (toggleVisibility id st) = toggleVisibility id st).
  { unfold areaSelect. rewrite Hf.
    unfold areaSelectable. simpl. rewrite Hvis. reflexivity. }
  rewrite Hd, Hc, Ha.
  split; [reflexivity|]. split; intros H; exact H.
Qed.

Lemma hidden_object_ignores_pointer_witness :
  let st := toggleVisibility 30 (step AddRectangle mount) in
  option_map (fun o => (left (attrs o), top (attrs o)))
    (find_object 30 (objects (canvas (dragObject 30 (120, 80) [] st))))
  = Some (50, 50).
Proof.
  intros st.
  assert (Hfind : find_object 30 (objects (canvas (step AddRectangle mount)))
                  = Some (newObject 30 rectAttrs)) by (vm_compute; reflexivity).
  destruct (hidden_object_ignores_pointer 30 _ (step AddRectangle mount)
              (120, 80) [] Hfind eq_refl) as (H1 & _).
  unfold st. rewrite H1. vm_compute. reflexivity.
Defined.

Lemma toggleLock_object_thrice o :
  toggleLock_object (toggleLock_object (toggleLock_object o)) = toggleLock_object o.
Proof.
  destruct o as [i a s e x l1 l2 l3 l4 l5]. unfold toggleLock_object. simpl.
  rewrite !negb_involutive. reflexivity.
Qed.

Lemma toggleLock_object_agrees o : lockAgrees (toggleLock_object o).
Proof.
  unfold lockAgrees, toggleLock_object. simpl.
  rewrite negb_involutive. repeat split.
Qed.

Lemma toggleLock_object_twice o :
  lockAgrees o -> toggleLock_object (toggleLock_object o) = o.
Proof.
  destruct o as [i a s e x l1 l2 l3 l4 l5]. unfold lockAgrees, toggleLock_object.
  simpl. intros (-> & -> & -> & -> & ->). rewrite !negb_involutive. reflexivity.
Qed.

Lemma oid_toggleLock_object o : oid (toggleLock_object o) = oid o.
Proof. reflexivity. Qed.

(** The lock button does not undo itself in general.  After one press the
    five lock flags agree and [selectable] is their negation, whatever the
    flags were; from then on the button alternates between two states (three
    presses equal one).  Two presses restore an object exactly when it was
    already in such a state; they write no history. *)
Theorem toggleLock_alternates (id : nat) (st : Editor) :
  toggleLock id (toggleLock id (toggleLock id st)) = toggleLock id st /\
  (forall o, find_object id (objects (canvas (toggleLock id st))) = Some o ->
             lockAgrees o) /\
  (forall o, find_object id (objects (canvas st)) = Some o -> lockAgrees o ->
             find_object id (objects (canvas (toggleLock id (toggleLock id st))))
             = Some o) /\
  history (toggleLock id st) = history st.
Proof.
  split; [|split; [|split; [|reflexivity]]].
  - destruct st as [[os act] h r so stx m n].
    unfold toggleLock, set_objects, set_canvas. simpl.
    rewrite !update_object_twice by (intros; reflexivity).
    rewrite (update_object_ext id _ toggleLock_object os)
      by (intros; apply toggleLock_object_thrice).
    reflexivity.
  - intros o. unfold toggleLock. simpl.
    rewrite find_update_object by (intros; apply oid_toggleLock_object).
    destruct (find_object id (objects (canvas st))) as [o0|]; [|discriminate].
    simpl. intros [= <-]. apply toggleLock_object_agrees.
  - intros o Hfind Hagree. unfold toggleLock. simpl.
    rewrite update_object_twice by (intros; reflexivity).
    rewrite find_update_object by (intros; reflexivity).
    rewrite Hfind. simpl. rewrite toggleLock_object_twice by exact Hagree.
    reflexivity.
Qed.

(** Locking an unlocked object takes it out of the pointer's reach: a drag
    aimed at it leaves it as it is, and neither a click on it nor an area
    selection over it makes it the active object. *)
Theorem locked_object_ignores_pointer
    (id : nat) (o : FabricObject) (st : Editor)
    (p : number * number) (ps : list (number * number)) :
  find_object id (objects (canvas st)) = Some o ->
  lockMovementX o = false ->
  find_object id (objects (canvas (dragObject id p ps (toggleLock id st))))
  = find_object id (objects (canvas (toggleLock id st))) /\
  (activeObject (canvas (clickObject id (toggleLock id st))) = Some id ->
   activeObject (canvas st) = Some id) /\
  (activeObject (canvas (areaSelect id (toggleLock id st))) = Some id ->
   activeObject (canvas st) = Some id).
Proof.
  intros Hfind Hlock.
  assert (Hf : find_object id (objects (canvas (toggleLock id st)))
               = Some (toggleLock_object o)).
  { unfold toggleLock. simpl.
    rewrite find_update_object by (intros; apply oid_toggleLock_object).
    rewrite Hfind. reflexivity. }
  assert (Hd : dragObject id p ps (toggleLock id st) = toggleLock id st).
  { unfold dragObject. rewrite Hf.
    unfold draggable, clickable, toggleLock_object. simpl.
    rewrite Hlock, !andb_false_r. reflexivity. }
  assert (Hc : clickObject id (toggleLock id st) = toggleLock id st).
  { unfold clickObject. rewrite Hf.
    unfold clickable, toggleLock_object. simpl.
    rewrite Hlock, !andb_false_r. reflexivity. }
  assert (Ha : areaSelect id (toggleLock id st) = toggleLock id st).
  { unfold areaSelect. rewrite Hf.
    unfold areaSelectable, toggleLock_object. simpl.
    rewrite Hlock, !andb_false_r. reflexivity. }
  rewrite Hd, Hc, Ha.
  split; [reflexivity|]. split; intros H; exact H.
Qed.

Lemma locked_object_ignores_pointer_witness :
  let st := toggleLock 30 (step AddCircle mount) in
  option_map (fun o => (left (attrs o), top (attrs o)))
    (find_object 30 (objects (canvas (dragObject 30 (10, 10) [(400, 300)] st))))
  = Some (200, 200).
Proof.
  intros st.
  assert (Hfind : find_object 30 (objects (canvas (step AddCircle mount)))
                  = Some (newObject 30 circleAttrs)) by (vm_compute; reflexivity).
  destruct (locked_object_ignores_pointer 30 _ (step AddCircle mount)
              (10, 10) [(400, 300)] Hfind eq_refl) as (H1 & _).
  unfold st. rewrite H1. vm_compute. reflexivity.
Defined.

Lemma toggleLock_alternates_witness :
  find_object 30
    (objects (canvas (toggleLock 30 (toggleLock 30 (step AddRectangle mount)))))
  = Some (newObject 30 rectAttrs).
Proof.
  destruct (toggleLock_alternates 30 (step AddRectangle mount)) as (_ & _ & H & _).
  apply H.
  - vm_compute. reflexivity.
  - vm_compute. repeat split.
Defined.

(** ** The grid (lines 265-302) *)

Lemma Math_round_integer (m : Z) : Math_round (inject_Z m * gridSize / gridSize) = m.
Proof.
  unfold Math_round, gridSize, Qfloor, Qdiv, Qmult, Qplus, Qinv, inject_Z. simpl.
  symmetry. apply Z.div_unique with (r := 50%Z); lia.
Qed.

Lemma snap_grid_point (m : Z) : snap (inject_Z m * gridSize) = inject_Z m * gridSize.
Proof. unfold snap. rewrite Math_round_integer. reflexivity. Qed.

Lemma snap_snap (x : number) : snap (snap x) = snap x.
Proof. apply snap_grid_point. Qed.

Lemma Math_round_monotone (x y : number) : x <= y -> (Math_round x <= Math_round y)%Z.
Proof.
  intros H. unfold Math_round. apply Qfloor_resp_le. unfold number in *. lra.
Qed.

Lemma snap_monotone (x y : number) : x <= y -> snap x <= snap y.
Proof.
  intros H. unfold snap, gridSize.
  assert (Hd : x / 50 <= y / 50).
  { unfold Qdiv. apply Qmult_le_compat_r; [exact H | discriminate]. }
  apply Math_round_monotone in Hd. rewrite Zle_Qle in Hd.
  apply Qmult_le_compat_r; [exact Hd | discriminate].
Qed.

(** The snap of lines 296-301 leaves every grid point where it is, so
    snapping twice is snapping once, and it keeps the order of positions: an
    object dragged further right or down never lands further left or up. *)
Theorem snap_idempotent_and_monotone (x y : number) :
  snap (snap x) = snap x /\
  (forall m : Z, snap (inject_Z m * gridSize) = inject_Z m * gridSize) /\
  (x <= y -> snap x <= snap y) /\
  (forall o, snapToGrid (snapToGrid o) = snapToGrid o).
Proof.
  split; [apply snap_snap|].
  split; [apply snap_grid_point|].
  split; [apply snap_monotone|].
  intros o. unfold snapToGrid, with_attrs, set_position. cbn -[snap].
  rewrite !snap_snap. reflexivity.
Qed.

Lemma snap_idempotent_and_monotone_witness : snap 130 <= snap 180.
Proof.
  destruct (snap_idempotent_and_monotone 130 180) as (_ & _ & H & _).
  apply H. vm_compute. discriminate.
Defined.

Lemma map_add_seq k n : forall s,
  map (fun i => (k + i)%nat) (seq s n) = seq (k + s) n.
Proof.
  induction n as [|n IH]; intros s; simpl; [reflexivity|].
  rewrite IH, Nat.add_succ_r. reflexivity.
Qed.

Lemma oid_numbered k n (mk : nat -> nat -> FabricObject) :
  (forall id i, oid (mk id i) = id) ->
  map oid (map (fun i => mk (k + i)%nat i) (seq 0 n)) = seq k n.
Proof.
  intros H. rewrite map_map.
  rewrite (map_ext _ (fun i => (k + i)%nat)) by (intros; apply H).
  rewrite map_add_seq, Nat.add_0_r. reflexivity.
Qed.

Lemma lineCount_spec (extent : number) (i : nat) :
  0 <= extent ->
  ((i < lineCount extent)%nat <-> inject_Z (Z.of_nat i) * gridSize <= extent).
Proof.
  intros Hpos. unfold lineCount, gridSize.
  assert (Hx : extent / 50 == extent * (1 # 50)) by (unfold Qdiv; reflexivity).
  pose proof (Qfloor_le (extent / 50)) as Hlo.
  pose proof (Qlt_floor (extent / 50)) as Hhi.
  assert (Hf0 : (0 <= Qfloor (extent / 50))%Z).
  { change 0%Z with (Qfloor 0). apply Qfloor_resp_le.
    unfold number in *. lra. }
  rewrite inject_Z_plus in Hhi. change (inject_Z 1) with 1 in Hhi.
  split.
  - intros Hi.
    assert (Hz : (Z.of_nat i <= Qfloor (extent / 50))%Z) by lia.
    rewrite Zle_Qle in Hz.
    generalize dependent (inject_Z (Qfloor (extent / 50))).
    generalize dependent (inject_Z (Z.of_nat i)).
    generalize dependent (extent / 50).
    unfold number in *. intros y Hy q k Hlo Hhi Hz. lra.
  - intros Hi.
    assert (Hz : inject_Z (Z.of_nat i) < inject_Z (Qfloor (extent / 50) + 1)).
    { rewrite inject_Z_plus. change (inject_Z 1) with 1.
      generalize dependent (inject_Z (Qfloor (extent / 50))).
      generalize dependent (inject_Z (Z.of_nat i)).
      generalize dependent (extent / 50).
      unfold number in *. intros y Hy q Hi k Hlo Hhi. lra. }
    rewrite <- Zlt_Qlt in Hz. lia.
Qed.

(** On a canvas of non-negative width and height [drawGrid] draws exactly
    one vertical line for every multiple of 50 from 0 to the width and one
    horizontal line for every multiple from 0 to the height, each spanning
    the canvas, and nothing else; the lines are distinct objects. *)
Theorem drawGrid_covers_canvas (w h : number) (first : nat) :
  0 <= w -> 0 <= h ->
  map oid (drawGrid w h first) = seq first (lineCount w + lineCount h) /\
  Forall (fun o => exists i : nat,
            (verticalAt (inject_Z (Z.of_nat i) * gridSize) h o /\
             inject_Z (Z.of_nat i) * gridSize <= w) \/
            (horizontalAt (inject_Z (Z.of_nat i) * gridSize) w o /\
             inject_Z (Z.of_nat i) * gridSize <= h))
         (drawGrid w h first) /\
  (forall i : nat, inject_Z (Z.of_nat i) * gridSize <= w ->
     exists o, In o (drawGrid w h first) /\
               verticalAt (inject_Z (Z.of_nat i) * gridSize) h o) /\
  (forall i : nat, inject_Z (Z.of_nat i) * gridSize <= h ->
     exists o, In o (drawGrid w h first) /\
               horizontalAt (inject_Z (Z.of_nat i) * gridSize) w o).
Proof.
  intros Hw Hh. unfold drawGrid. split; [|split; [|split]].
  - rewrite map_app, seq_app. f_equal.
    + apply (oid_numbered first (lineCount w)
               (fun id i => gridLine id (inject_Z (Z.of_nat i) * gridSize) 0
                              (inject_Z (Z.of_nat i) * gridSize) h)).
      reflexivity.
    + apply (oid_numbered (first + lineCount w) (lineCount h)
               (fun id i => gridLine id 0 (inject_Z (Z.of_nat i) * gridSize)
                              w (inject_Z (Z.of_nat i) * gridSize))).
      reflexivity.
  - apply Forall_app. split; apply Forall_map, Forall_forall; intros i Hi;
      apply in_seq in Hi; exists i.
    + left. split; [repeat split|]. apply lineCount_spec; [exact Hw | lia].
    + right. split; [repeat split|]. apply lineCount_spec; [exact Hh | lia].
  - intros i Hi. apply (lineCount_spec w i Hw) in Hi.
    eexists. split.
    + apply in_or_app. left. apply in_map_iff. exists i.
      split; [reflexivity | apply in_seq; lia].
    + repeat split.
  - intros i Hi. apply (lineCount_spec h i Hh) in Hi.
    eexists. split.
    + apply in_or_app. right. apply in_map_iff. exists i.
      split; [reflexivity | apply in_seq; lia].
    + repeat split.
Qed.

Lemma drawGrid_covers_canvas_witness :
  map oid (drawGrid 800 600 0) = seq 0 30 /\
  exists o, In o (drawGrid 800 600 0) /\ verticalAt 800 600 o.
Proof.
  assert (Hw : 0 <= 800) by (vm_compute; discriminate).
  assert (Hh : 0 <= 600) by (vm_compute; discriminate).
  destruct (drawGrid_covers_canvas 800 600 0 Hw Hh) as (Hoid & _ & Hv & _).
  split; [exact Hoid|].
  destruct (Hv 16%nat) as (o & Hin & Hline); [vm_compute; discriminate|].
  exists o. split; [exact Hin | exact Hline].
Defined.

(** ** The drawing tools (lines 159-189) *)

Lemma activate_agrees a t : Tools.agrees (Tools.activate a t).
Proof. destruct a; unfold Tools.agrees; simpl; repeat split. Qed.

(** Whatever tool buttons were pressed before, after a tool button the tool
    state is that button's: drawing mode is on exactly for the brush and the
    eraser, the brush in use is the one the button has just built (so the
    eraser's ['destination-out'] never stays on the drawing brush), and the
    select button leaves the last brush in place, unused. *)
Theorem last_tool_button_decides
    (l : list Tools.Activation) (a : Tools.Activation) (t : Tools.State) :
  Tools.agrees (Tools.activations (l ++ [a]) t) /\
  Tools.activations (l ++ [a]) t = Tools.activate a (Tools.activations l t) /\
  (a = Tools.ActivateSelect ->
   Tools.freeDrawingBrush (Tools.activations (l ++ [a]) t)
   = Tools.freeDrawingBrush (Tools.activations l t)) /\
  (a <> Tools.ActivateSelect ->
   Tools.activations (l ++ [a]) t = Tools.activate a t).
Proof.
  assert (E : Tools.activations (l ++ [a]) t
              = Tools.activate a (Tools.activations l t)).
  { unfold Tools.activations. rewrite fold_left_app. reflexivity. }
  rewrite E. split; [apply activate_agrees|]. split; [reflexivity|]. split.
  - intros ->. reflexivity.
  - intros Ha. destruct a; [congruence | reflexivity | reflexivity].
Qed.

Lemma last_tool_button_decides_witness :
  let t0 := {| Tools.isDrawingMode := false; Tools.freeDrawingBrush := None;
               Tools.currentTool := Tools.select |} in
  Tools.activations [Tools.ActivateEraser; Tools.ActivateSelect; Tools.ActivateBrush] t0
  = Tools.activateBrush t0 /\
  Tools.freeDrawingBrush
    (Tools.activations [Tools.ActivateBrush; Tools.ActivateEraser; Tools.ActivateSelect] t0)
  = Tools.freeDrawingBrush
      (Tools.activations [Tools.ActivateBrush; Tools.ActivateEraser] t0).
Proof.
  intros t0. split.
  - destruct (last_tool_button_decides
                [Tools.ActivateEraser; Tools.ActivateSelect] Tools.ActivateBrush t0)
      as (_ & _ & _ & H).
    apply H. discriminate.
  - destruct (last_tool_button_decides
                [Tools.ActivateBrush; Tools.ActivateEraser] Tools.ActivateSelect t0)
      as (_ & _ & H & _).
    apply H. reflexivity.
Defined.

(** ** Property edits, once more *)

(** Colour edits compose on the canvas as assignments do: of two edits of
    the same property the later one wins, and a fill edit and a stroke edit
    give the same canvas in either order.  (Each edit still records its own
    snapshot.) *)
Theorem colour_edits_compose (v1 v2 : string) (st : Editor) :
  canvas (updateObjectColor "fill" v2 (updateObjectColor "fill" v1 st))
  = canvas (updateObjectColor "fill" v2 st) /\
  canvas (updateObjectColor "stroke" v2 (updateObjectColor "fill" v1 st))
  = canvas (updateObjectColor "fill" v1 (updateObjectColor "stroke" v2 st)) /\
  List.length (history (updateObjectColor "fill" v2 (updateObjectColor "fill" v1 st)))
  = (match selectedObject st with Some _ => 2 | None => 0 end
     + List.length (history st))%nat.
Proof.
  unfold updateObjectColor.
  destruct (selectedObject st) as [id|] eqn:Hsel; simpl; rewrite ?Hsel;
    [|repeat split].
  split; [|split].
  - unfold set_objects, set_canvas. simpl. f_equal.
    rewrite update_object_twice by (intros; apply oid_with_attrs).
    apply update_object_ext. intros o. reflexivity.
  - unfold set_objects, set_canvas. simpl. f_equal.
    rewrite !update_object_twice by (intros; apply oid_with_attrs).
    apply update_object_ext. intros o. reflexivity.
  - unfold saveState, setRedoStack, setHistory. cbn [history].
    rewrite !length_app. simpl. rewrite length_app. simpl. lia.
Qed.

(** ** Image import: the scale *)

(** [scaleToWidth(300)] shrinks pictures wider than 300 pixels and enlarges
    narrower ones: the scale factor of an imported picture is below 1
    exactly when its natural width is above 300, and it is 1 exactly at
    300. *)
Theorem image_import_scale_direction (url : string) (w h : positive) :
  (scaleX (scaleToWidth 300 (imageAttrs url w h)) < 1 <-> (300 < Zpos w)%Z) /\
  (scaleX (scaleToWidth 300 (imageAttrs url w h)) == 1 <-> Zpos w = 300%Z) /\
  (1 < scaleX (scaleToWidth 300 (imageAttrs url w h)) <-> (Zpos w < 300)%Z).
Proof.
  unfold scaleToWidth, imageAttrs, set_scale. simpl.
  unfold Qlt, Qeq, Qdiv, Qmult, Qinv, inject_Z. simpl.
  repeat split; intros; lia.
Qed.

Lemma image_import_scale_direction_witness :
  scaleX (scaleToWidth 300 (imageAttrs "data:image/png;base64,AAAA" 640 480)) < 1 /\
  1 < scaleX (scaleToWidth 300 (imageAttrs "data:image/png;base64,AAAA" 120 90)).
Proof.
  split.
  - apply (proj1 (image_import_scale_direction "data:image/png;base64,AAAA" 640 480)).
    lia.
  - apply (proj2 (proj2 (image_import_scale_direction
                           "data:image/png;base64,AAAA" 120 90))).
    lia.
Defined.

(** ** After a load *)

(** The first [undo] after the load of a project restores the entry before
    the last of [history].  For a project of two objects or more that entry
    is the loaded scene, which stays.  For a project of one object it is the
    snapshot of the emptied canvas, or of the old scene when the canvas held
    nothing: the canvas is left empty. *)
Theorem first_undo_after_load (l : list Attrs) (st : Editor) :
  (List.length l = 1%nat ->
   toJSON (canvas (undo (loadProject (Document (Some l)) st))) = []) /\
  ((2 <= List.length l)%nat ->
   toJSON (canvas (undo (loadProject (Document (Some l)) st))) = l).
Proof.
  pose proof (loadProject_history l st) as Hh.
  split.
  - intros Hl. destruct l as [|a [|b l]]; try discriminate.
    assert (Hh' : history (loadProject (Document (Some [a])) st)
                  = (((history st ++ [toJSON (canvas st)])
                      ++ removalSnapshots (objects (canvas st))) ++ [[a]])%list).
    { rewrite Hh. simpl. rewrite <- !app_assoc. reflexivity. }
    assert (Hlen : (1 < List.length (history (loadProject (Document (Some [a])) st)))%nat).
    { rewrite Hh', !length_app. simpl. lia. }
    destruct (undo_replay _ Hlen) as (_ & H2 & _).
    rewrite H2, Hh', removelast_last.
    destruct (objects (canvas st)) as [|o os] eqn:Eo.
    + simpl. rewrite app_nil_r, last_last. unfold toJSON. rewrite Eo. reflexivity.
    + rewrite last_app_nonempty by discriminate.
      apply removalSnapshots_last. discriminate.
  - intros Hl.
    destruct (List.length l) as [|[|k]] eqn:Ek; [lia | lia |].
    rewrite (repeat_two_more l k) in Hh.
    assert (Hh' : history (loadProject (Document (Some l)) st)
                  = ((history st ++ repeat (toJSON (canvas st)) (S (S k))
                      ++ removalSnapshots (objects (canvas st)) ++ repeat l k)
                     ++ [l; l])%list).
    { rewrite Hh, <- !app_assoc. reflexivity. }
    destruct (undo_stuck _ _ l Hh') as (h' & _ & Hc & _); [lia | exact Hc].
Qed.

Lemma first_undo_after_load_witness :
  toJSON (canvas (undo (loadProject (Document (Some [circleAttrs])) mount))) = [] /\
  toJSON (canvas (undo (loadProject (Document (Some [rectAttrs; circleAttrs])) mount)))
  = [rectAttrs; circleAttrs].
Proof.
  split.
  - apply (first_undo_after_load [circleAttrs] mount). reflexivity.
  - apply (first_undo_after_load [rectAttrs; circleAttrs] mount). simpl. lia.
Defined.

(** ** Undo, redo and the grid over a session *)

Lemma undo_discards_redoStack_witness :
  redoStack (undo (step AddRectangle mount)) = [] /\
  redo (undo (step AddRectangle mount)) = undo (step AddRectangle mount).
Proof.
  apply undo_discards_redoStack.
  - vm_compute. lia.
  - vm_compute. discriminate.
Defined.

(** In every state of a session the grid lines are left out of the project
    file, a click never makes a grid line the active object, and a drag aimed
    at a grid line leaves it as it is. *)
Theorem grid_lines_out_of_project_and_clicks (st : Editor) (id : nat)
    (p : number * number) (ps : list (number * number)) :
  reachable st ->
  (id < gridLineCount)%nat ->
  saveProject st
  = map attrs (filter (fun o => negb (excludeFromExport o)
                                && Nat.leb gridLineCount (oid o))
                 (objects (canvas st))) /\
  (activeObject (canvas (clickObject id st)) = Some id ->
   activeObject (canvas st) = Some id) /\
  find_object id (objects (canvas (dragObject id p ps st)))
  = find_object id (objects (canvas st)).
Proof.
  intros [acts ->] Hid.
  destruct (keeps_run acts mount keeps_mount) as [_ Hall].
  set (st := run acts mount) in *.
  rewrite Forall_forall in Hall.
  split; [|split].
  - unfold saveProject, toJSON, toObject. f_equal.
    apply filter_ext_in. intros o Ho. specialize (Hall o Ho).
    destruct (Nat.leb_spec gridLineCount (oid o)) as [_|Hlt].
    + rewrite andb_true_r. reflexivity.
    + destruct (Hall Hlt) as [-> _]. reflexivity.
  - unfold clickObject.
    destruct (find_object id (objects (canvas st))) as [o|] eqn:Hfind; [|trivial].
    pose proof (find_object_oid _ _ _ Hfind) as Hoid.
    pose proof (Hall o (find_object_In _ _ _ Hfind)) as Ho.
    unfold gridLineKept in Ho. rewrite Hoid in Ho. destruct (Ho Hid) as [_ Hev].
    unfold clickable. rewrite Hev, andb_false_r. trivial.
  - unfold dragObject.
    destruct (find_object id (objects (canvas st))) as [o|] eqn:Hfind; [|exact Hfind].
    pose proof (find_object_oid _ _ _ Hfind) as Hoid.
    pose proof (Hall o (find_object_In _ _ _ Hfind)) as Ho.
    unfold gridLineKept in Ho. rewrite Hoid in Ho. destruct (Ho Hid) as [_ Hev].
    unfold draggable, clickable. rewrite Hev, andb_false_r. simpl. exact Hfind.
Qed.

Lemma grid_lines_out_of_project_and_clicks_witness :
  let st := run [OpenLayers; ToggleLock 3; ToggleLock 3; AddRectangle] mount in
  saveProject st = [rectAttrs] /\
  (activeObject (canvas (clickObject 3 st)) = Some 3%nat ->
   activeObject (canvas st) = Some 3%nat).
Proof.
  intros st.
  assert (Hreach : reachable st) by (eexists; reflexivity).
  assert (Hid : (3 < gridLineCount)%nat) by (vm_compute; lia).
  destruct (grid_lines_out_of_project_and_clicks st 3 (0, 0) [] Hreach Hid)
    as (_ & H2 & _).
  split; [vm_compute; reflexivity | exact H2].
Defined.
